(** * Agri backend: the retrieval-augmented response composition

    A shallow embedding of [backend/gemini_service.py] and of the [/query]
    route of [backend/app.py], followed by the properties of the response
    composition protocol.

    Conventions of the embedding:
    - a Python [str] is a [string]; each character stands for one code point
      below 256, which is enough for every literal of the two files;
    - a Python [dict] with a fixed set of keys is a record; a key that may be
      absent is an [option] field, so that [d.get(k, default)] and [d[k]]
      (which raises [KeyError]) are told apart;
    - a number that is only passed through (a confidence) is a rational;
    - an exception is a value of [exn]; code that may raise and that calls the
      generative model runs in [Comp], which records the prompts sent out;
    - console output ([print]) is not part of the model. *)

From Stdlib Require Import String Ascii List Bool ZArith QArith Lia.
From Stdlib Require Import DecimalString.
Import ListNotations.

Local Close Scope Q_scope.
Local Open Scope nat_scope.
Local Open Scope list_scope.
Local Open Scope string_scope.

(* ===================================================================== *)
(** ** Python values *)
(* ===================================================================== *)

Definition nl : string := String (ascii_of_nat 10) EmptyString.

(** [str.isspace] on one code point below 256: TAB..CR, FS..US, SPACE,
    NEL (0x85) and NBSP (0xA0). *)
Definition isspace (c : ascii) : bool :=
  let n := nat_of_ascii c in
  (((9 <=? n) && (n <=? 13)) || ((28 <=? n) && (n <=? 32))
   || (n =? 133) || (n =? 160))%nat.

Fixpoint lstrip (s : string) : string :=
  match s with
  | EmptyString => EmptyString
  | String c s' => if isspace c then lstrip s' else s
  end.

Definition is_empty (s : string) : bool :=
  match s with EmptyString => true | String _ _ => false end.

Fixpoint rstrip (s : string) : string :=
  match s with
  | EmptyString => EmptyString
  | String c s' =>
      let r := rstrip s' in
      if isspace c && is_empty r then EmptyString else String c r
  end.

(** [s.strip()] *)
Definition strip (s : string) : string := rstrip (lstrip s).

(** [str(i)] for a loop counter. *)
Definition str_of_nat (i : nat) : string :=
  NilZero.string_of_uint (Nat.to_uint i).

(** A value interpolated in an f-string whose type the retriever decides:
    text, or an integer.  (A float reaches the prompt through [str] too; it is
    carried here as the text [str] gives for it.) *)
Inductive PyScalar : Type :=
| PyStr (s : string)
| PyInt (n : Z).

(** [format(v, '')], what [f"{v}"] inserts. *)
Definition py_format (v : PyScalar) : string :=
  match v with
  | PyStr s => s
  | PyInt n => NilZero.string_of_int (Z.to_int n)
  end.

(** [enumerate(l, start)] *)
Definition enumerate {A : Type} (l : list A) (start : nat) : list (nat * A) :=
  combine (seq start (length l)) l.

(** Truth value of a list and of a string. *)
Definition list_truthy {A : Type} (l : list A) : bool :=
  match l with [] => false | _ :: _ => true end.

Definition str_truthy (s : string) : bool := negb (is_empty s).

(* ===================================================================== *)
(** ** Exceptions and the computation monad *)
(* ===================================================================== *)

Inductive exn : Type :=
| Exception (msg : string)
| KeyError (key : string)
| TypeError (msg : string)
| NameError (msg : string)
| AttributeError (msg : string).

Definition double_quote : ascii := ascii_of_nat 34.

Definition backslash : ascii := ascii_of_nat 92.

(** [str.isprintable] on one code point below 256. *)
Definition isprintable (c : ascii) : bool :=
  let n := nat_of_ascii c in
  (((32 <=? n) && (n <? 127)) || ((161 <=? n) && negb (n =? 173)))%nat.

Definition hex_digit (n : nat) : ascii :=
  nth n (list_ascii_of_string "0123456789abcdef") "0"%char.

(** The [\xhh] escape of [repr]. *)
Definition hex_escape (c : ascii) : string :=
  let n := nat_of_ascii c in
  String backslash
    (String "x"%char
       (String (hex_digit (n / 16)) (String (hex_digit (n mod 16)) ""))).

Definition has_char (c : ascii) (s : string) : bool :=
  existsb (Ascii.eqb c) (list_ascii_of_string s).

(** One character of [repr(s)], inside the quotes [quote]. *)
Definition repr_char (quote c : ascii) : string :=
  let n := nat_of_ascii c in
  if Ascii.eqb c quote || Ascii.eqb c backslash then
    String backslash (String c "")
  else if (n =? 9)%nat then String backslash "t"
  else if (n =? 10)%nat then String backslash "n"
  else if (n =? 13)%nat then String backslash "r"
  else if isprintable c then String c ""
  else hex_escape c.

(** [repr(s)] of a string: single quotes, unless the string has an
    apostrophe and no double quote. *)
Definition py_repr (s : string) : string :=
  let quote :=
    if has_char "'"%char s && negb (has_char double_quote s)
    then double_quote else "'"%char in
  String quote
    (fold_right (fun c acc => repr_char quote c ++ acc) (String quote "")
       (list_ascii_of_string s)).

(** [str(e)]; the text of a [KeyError] is the [repr] of its key. *)
Definition str_of_exn (e : exn) : string :=
  match e with
  | Exception msg => msg
  | KeyError key => py_repr key
  | TypeError msg => msg
  | NameError msg => msg
  | AttributeError msg => msg
  end.

Inductive Exc (A : Type) : Type :=
| Ok (a : A)
| Raise (e : exn).
Arguments Ok {A} a.
Arguments Raise {A} e.

(** The one outbound effect of a request: a prompt handed to the model. *)
Inductive Event : Type :=
| GenerateContent (prompt : string).

(** A computation: the events it performed, and its value or the exception
    it raised.  The events of a computation that raises are kept. *)
Definition Comp (A : Type) : Type := (list Event * Exc A)%type.

Definition ret {A : Type} (a : A) : Comp A := ([], Ok a).

Definition raise {A : Type} (e : exn) : Comp A := ([], Raise e).

Definition bind {A B : Type} (c : Comp A) (k : A -> Comp B) : Comp B :=
  match c with
  | (l, Ok a) => let (l', r) := k a in ((l ++ l')%list, r)
  | (l, Raise e) => (l, Raise e)
  end.

(** [try: c  except Exception as e: h e] *)
Definition try_except {A : Type} (c : Comp A) (h : exn -> Comp A) : Comp A :=
  match c with
  | (l, Ok a) => (l, Ok a)
  | (l, Raise e) => let (l', r) := h e in ((l ++ l')%list, r)
  end.

(** A call that performs no event. *)
Definition lift {A : Type} (r : Exc A) : Comp A := ([], r).

Declare Scope comp_scope.
Delimit Scope comp_scope with comp.
Notation "x <- c ;; k" := (bind c (fun x => k))
  (at level 61, c at next level, right associativity) : comp_scope.
Local Open Scope comp_scope.

(** [d[key]] on an optional key. *)
Definition getitem {A : Type} (key : string) (v : option A) : Comp A :=
  match v with
  | Some a => ret a
  | None => raise (KeyError key)
  end.

(** [d.get(key, default)] on an optional key. *)
Definition get {A : Type} (v : option A) (default : A) : A :=
  match v with
  | Some a => a
  | None => default
  end.

(* ===================================================================== *)
(** ** The data exchanged *)
(* ===================================================================== *)

(** One entry of [retrieved_data['sources']].  [source['dataset']],
    [source['chunk']] and [source['relevance']] are read unconditionally;
    ['details'] is tested with [in]. *)
Record Source : Type := mkSource {
  dataset : string;
  chunk : string;
  details : option string;
  relevance : PyScalar
}.

(** The dictionary returned by [qa.answer_question]; only the keys the two
    files read are represented. *)
Module Retrieved.

Record t : Type := mk {
  answer : option string;
  confidence : option Q;
  sources : option (list Source);
  search_results_count : option Z
}.

(** [bool(retrieved_data)]: a dictionary is true when it has a key. *)
Definition truthy (d : t) : bool :=
  match answer d, confidence d, sources d, search_results_count d with
  | None, None, None, None => false
  | _, _, _, _ => true
  end.

End Retrieved.

(** The dictionary returned by [generate_smart_response]: ['answer'],
    ['confidence'], ['sources'] and ['ai_enhanced'] are set on both of its
    returns, ['general_guidance'] and ['fallback'] on one each. *)
Module Enhanced.

Record t : Type := mk {
  answer : string;
  confidence : Q;
  sources : list Source;
  ai_enhanced : bool;
  general_guidance : option bool;
  fallback : option bool
}.

End Enhanced.

(* ===================================================================== *)
(** ** gemini_service.py *)
(* ===================================================================== *)

(** [model.generate_content(prompt)] followed by [response.text]: the text
    of the completion, or the exception either step raised. *)
Definition Model : Type := string -> Exc string.

(** The two module-level names set when the module is imported. *)
Record GeminiService : Type := mkGeminiService {
  GEMINI_READY : bool;
  model : option Model
}.

(** The module body: [boot] is the outcome of importing the client library,
    configuring it and constructing the model. *)
Definition gemini_service_module (boot : Exc Model) : GeminiService :=
  match boot with
  | Ok m => {| GEMINI_READY := true; model := Some m |}
  | Raise _ => {| GEMINI_READY := false; model := None |}
  end.

Definition is_None {A : Type} (v : option A) : bool :=
  match v with None => true | Some _ => false end.

(** [retrieved_data.get('sources')] as a truth value. *)
Definition sources_truthy (retrieved_data : Retrieved.t) : bool :=
  match Retrieved.sources retrieved_data with
  | Some l => list_truthy l
  | None => false
  end.

(** [len(retrieved_data['sources'])], evaluated only once the key is known
    to be there. *)
Definition len_sources (retrieved_data : Retrieved.t) : nat :=
  length (get (Retrieved.sources retrieved_data) []).

(** [retrieved_data and retrieved_data.get('sources') and
    len(retrieved_data['sources']) > 0], as a truth value. *)
Definition has_data (retrieved_data : Retrieved.t) : bool :=
  Retrieved.truthy retrieved_data && sources_truthy retrieved_data
  && (0 <? len_sources retrieved_data)%nat.

(** The f-string opening [context], up to the interpolated question. *)
Definition context_head : string :=
  String.concat nl
    [ "You are **SaarthiAI**, an expert agriculture assistant and guide helping users with questions about Indian agriculture, crop production, soil health, and general agricultural practices.";
      "";
      "Your role is to:";
      "- Answer questions about Indian agriculture using available data";
      "- Guide users with general agricultural knowledge and best practices";
      "- Provide helpful advice on farming, crops, soil management, and agricultural techniques";
      "- Act as a knowledgeable mentor and guide for farmers and agriculture enthusiasts";
      "";
      "User Question: " ].

(** The rest of that f-string, after the question. *)
Definition context_tail : string :=
  String.concat nl [ ""; ""; "Retrieved Data from Knowledge Base:"; "" ].

Definition no_match_note : string :=
  nl ++ "Note: No specific dataset matches found for this question. Please provide general guidance based on your agricultural expertise." ++ nl.

(** The f-string building [prompt], after the interpolated [context]. *)
Definition prompt_tail : string :=
  String.concat nl
    [ ""; "";
      "Based on the information above (if available), provide a helpful, clear, and conversational answer to the user's question. ";
      "";
      "Guidelines:";
      "1. **Always introduce yourself as SaarthiAI** at the beginning if this is a general question";
      "2. Answer naturally and conversationally, acting as a helpful guide";
      "3. If specific data is provided, use it and cite it appropriately";
      "4. If no specific data is available, use your agricultural expertise to provide general guidance";
      "5. For general agriculture questions, provide comprehensive guidance including:";
      "   - Best practices and recommendations";
      "   - Agricultural techniques and methods";
      "   - Crop management advice";
      "   - Soil health improvement tips";
      "   - Common agricultural knowledge";
      "6. Be encouraging and supportive, like a mentor";
      "7. If applicable, mention that you can also provide specific data queries if they have questions about particular regions or crops";
      "8. Include relevant numbers and statistics when data is available";
      "9. If multiple sources provide data, synthesize them intelligently";
      "";
      "Your Response:" ].

(** One turn of the loop over [enumerate(sources[:3], 1)]: the four or five
    [context += ...] statements. *)
Definition add_source (context : string) (entry : nat * Source) : string :=
  let (i, source) := entry in
  let context := context ++ (nl ++ "Source " ++ str_of_nat i ++ ":" ++ nl) in
  let context := context ++ ("Dataset: " ++ dataset source ++ nl) in
  let context := context ++ ("Information: " ++ chunk source ++ nl) in
  let context :=
    match details source with
    | Some d => context ++ ("Details: " ++ d ++ nl)
    | None => context
    end in
  context ++ ("Relevance: " ++ py_format (relevance source) ++ nl).

(** [context], from its f-string to the end of the [if]/[else] that adds the
    retrieved chunks. *)
Definition build_context (user_question : string)
    (retrieved_data : Retrieved.t) : string :=
  let context := context_head ++ user_question ++ context_tail in
  if sources_truthy retrieved_data && (0 <? len_sources retrieved_data)%nat then
    fold_left add_source
      (enumerate (firstn 3 (get (Retrieved.sources retrieved_data) [])) 1)
      context
  else
    context ++ no_match_note.

Definition build_prompt (user_question : string)
    (retrieved_data : Retrieved.t) : string :=
  build_context user_question retrieved_data ++ prompt_tail.

Definition canned_answer : string :=
  "I'm **SaarthiAI**, your agriculture assistant. I apologize, but I'm having trouble processing your question right now. Please try asking about:"
  ++ nl ++ nl ++ "- Crop production data"
  ++ nl ++ "- Soil health information"
  ++ nl ++ "- General agriculture guidance"
  ++ nl ++ "- Farming best practices".

(** [model.generate_content(prompt)] and [response.text], on the module-level
    [model]. *)
Definition generate_content (svc : GeminiService) (prompt : string)
  : Comp string :=
  match model svc with
  | Some m => ([GenerateContent prompt], m prompt)
  | None =>
      raise (AttributeError "'NoneType' object has no attribute 'generate_content'")
  end.

(** The [except] branch of [generate_smart_response]. *)
Definition fallback_result (retrieved_data : Retrieved.t) : Enhanced.t :=
  let fallback_answer := get (Retrieved.answer retrieved_data) "" in
  let fallback_answer :=
    if negb (str_truthy fallback_answer) || is_empty (strip fallback_answer)
    then canned_answer
    else fallback_answer in
  {| Enhanced.answer := fallback_answer;
     Enhanced.confidence := get (Retrieved.confidence retrieved_data) 0%Q;
     Enhanced.sources := get (Retrieved.sources retrieved_data) [];
     Enhanced.ai_enhanced := false;
     Enhanced.general_guidance := None;
     Enhanced.fallback := Some true |}.

Definition generate_smart_response (svc : GeminiService)
    (user_question : string) (retrieved_data : Retrieved.t)
  : Comp Enhanced.t :=
  if negb (GEMINI_READY svc) || is_None (model svc) then
    raise (Exception "Gemini not available")
  else
    let has_data := has_data retrieved_data in
    let prompt := build_prompt user_question retrieved_data in
    try_except
      (text <- generate_content svc prompt ;;
       let enhanced_answer := strip text in
       ret {| Enhanced.answer := enhanced_answer;
              Enhanced.confidence :=
                if has_data
                then get (Retrieved.confidence retrieved_data) 0%Q
                else (1 # 2)%Q;
              Enhanced.sources := get (Retrieved.sources retrieved_data) [];
              Enhanced.ai_enhanced := true;
              Enhanced.general_guidance := Some (negb has_data);
              Enhanced.fallback := None |})
      (fun _ => ret (fallback_result retrieved_data)).

(* ===================================================================== *)
(** ** app.py: the [/query] route *)
(* ===================================================================== *)

(** The JSON object of a request; only the keys the route reads. *)
Module Request.

Record t : Type := mk {
  question : option string;
  top_k : option Z;
  use_gemini : option bool
}.

(** [bool(data)] *)
Definition truthy (d : t) : bool :=
  match question d, top_k d, use_gemini d with
  | None, None, None => false
  | _, _, _ => true
  end.

End Request.

(** The [response] dictionary of the route.  ['general_guidance'] is set on
    the enhanced branch only, ['fallback'] on the [except] branch only. *)
Module Response.

Record t : Type := mk {
  question : string;
  answer : string;
  confidence : Q;
  sources : list Source;
  num_results : Z;
  ai_enhanced : bool;
  general_guidance : option bool;
  fallback : option bool
}.

End Response.

(** What [jsonify] is given: the response dictionary, [{'error': ...}], or
    [{'error': ..., 'details': ...}] (the traceback text is not modelled). *)
Inductive Body : Type :=
| Envelope (response : Response.t)
| Error (error : string)
| ErrorWithDetails (error : string).

(** The retriever object: [qa.answer_question(question, top_k=top_k)]. *)
Record QASystem : Type := mkQASystem {
  answer_question : string -> Z -> Exc Retrieved.t
}.

(** The module-level names of [app.py] that the route reads.
    [gemini_service] is [None] when the import failed and left
    [generate_smart_response] unbound; [IntelligentQASystem] is the outcome of
    calling the retriever's constructor; [qa_system] is the lazily set
    global. *)
Record Process : Type := mkProcess {
  GEMINI_AVAILABLE : bool;
  gemini_service : option GeminiService;
  IntelligentQASystem : Exc QASystem;
  qa_system : option QASystem
}.

(** The imports at the top of [app.py].  [imported] is [Raise] when
    [import gemini_service] itself raised; otherwise the module body ran, with
    [boot] the outcome of its [try] block. *)
Definition startup (imported : Exc (Exc Model)) (ctor : Exc QASystem)
  : Process :=
  match imported with
  | Ok boot =>
      {| GEMINI_AVAILABLE := true;
         gemini_service := Some (gemini_service_module boot);
         IntelligentQASystem := ctor;
         qa_system := None |}
  | Raise _ =>
      {| GEMINI_AVAILABLE := false;
         gemini_service := None;
         IntelligentQASystem := ctor;
         qa_system := None |}
  end.

Definition set_qa_system (p : Process) (qa : QASystem) : Process :=
  {| GEMINI_AVAILABLE := GEMINI_AVAILABLE p;
     gemini_service := gemini_service p;
     IntelligentQASystem := IntelligentQASystem p;
     qa_system := Some qa |}.

Definition init_qa_system (p : Process) : Process * Exc QASystem :=
  match qa_system p with
  | Some qa => (p, Ok qa)
  | None =>
      match IntelligentQASystem p with
      | Ok qa => (set_qa_system p qa, Ok qa)
      | Raise e => (p, Raise e)
      end
  end.

(** The call [generate_smart_response(question, result)] from the route. *)
Definition call_generate_smart_response (p : Process) (question : string)
    (result : Retrieved.t) : Comp Enhanced.t :=
  match gemini_service p with
  | Some svc => generate_smart_response svc question result
  | None =>
      raise (NameError "name 'generate_smart_response' is not defined")
  end.

(** The dictionary built after a successful return of the composer. *)
Definition enhanced_response (question : string) (result : Retrieved.t)
    (enhanced_result : Enhanced.t) : Response.t :=
  {| Response.question := question;
     Response.answer := Enhanced.answer enhanced_result;
     Response.confidence := Enhanced.confidence enhanced_result;
     Response.sources := Enhanced.sources enhanced_result;
     Response.num_results := get (Retrieved.search_results_count result) 0%Z;
     Response.ai_enhanced := Enhanced.ai_enhanced enhanced_result;
     Response.general_guidance :=
       Some (get (Enhanced.general_guidance enhanced_result) false);
     Response.fallback := None |}.

(** The dictionary of the [except] branch ([fallback = Some true]) and of the
    [else] branch ([fallback = None]); [result['answer']] and
    [result['confidence']] raise [KeyError] on a missing key. *)
Definition plain_response (question : string) (result : Retrieved.t)
    (fallback : option bool) : Comp Response.t :=
  answer <- getitem "answer" (Retrieved.answer result) ;;
  confidence <- getitem "confidence" (Retrieved.confidence result) ;;
  ret {| Response.question := question;
         Response.answer := answer;
         Response.confidence := confidence;
         Response.sources := get (Retrieved.sources result) [];
         Response.num_results :=
           get (Retrieved.search_results_count result) 0%Z;
         Response.ai_enhanced := false;
         Response.general_guidance := None;
         Response.fallback := fallback |}.

(** [not data or 'question' not in data] *)
Definition missing_question (data : option Request.t) : bool :=
  match data with
  | None => true
  | Some d => negb (Request.truthy d) || is_None (Request.question d)
  end.

(** The [if GEMINI_AVAILABLE and use_gemini: ... else: ...] statement of
    [query], which binds [response]. *)
Definition compose_response (p : Process) (question : string)
    (result : Retrieved.t) (use_gemini : bool) : Comp Response.t :=
  if GEMINI_AVAILABLE p && use_gemini then
    try_except
      (enhanced_result <- call_generate_smart_response p question result ;;
       ret (enhanced_response question result enhanced_result))
      (fun _ => plain_response question result (Some true))
  else
    plain_response question result None.

(** The body of the outer [try] of [query], after [init_qa_system]. *)
Definition query_body (p : Process) (qa : QASystem)
    (data : option Request.t) : Comp (Body * Z) :=
  if missing_question data then
    ret (Error "Missing question parameter", 400%Z)
  else
    match data with
    | None => raise (TypeError "'NoneType' object is not subscriptable")
    | Some d =>
        question <- getitem "question" (Request.question d) ;;
        let top_k := get (Request.top_k d) 10%Z in
        let use_gemini := get (Request.use_gemini d) true in
        result <- lift (answer_question qa question top_k) ;;
        response <- compose_response p question result use_gemini ;;
        ret (Envelope response, 200%Z)
    end.

(** The route: the process after the request, the prompts sent out while
    serving it, and the body and status returned. *)
Definition query (p : Process) (data : option Request.t)
  : Process * list Event * (Body * Z) :=
  match init_qa_system p with
  | (p', Raise e) => (p', [], (ErrorWithDetails (str_of_exn e), 500%Z))
  | (p', Ok qa) =>
      match query_body p' qa data with
      | (l, Ok r) => (p', l, r)
      | (l, Raise e) => (p', l, (ErrorWithDetails (str_of_exn e), 500%Z))
      end
  end.

(* ===================================================================== *)
(** ** The statements of the specification, as definitions *)
(* ===================================================================== *)

(** The fallback answer in the specification's words: [retrieval.answer]
    if non-empty, else the canned string. *)
Definition fallback_answer_as_specified (retrieval : Retrieved.t) : string :=
  let a := get (Retrieved.answer retrieval) "" in
  if is_empty a then canned_answer else a.

(** A string with no character other than white space. *)
Definition blank (s : string) : bool :=
  forallb isspace (list_ascii_of_string s).

(** The rendering of one source in the specification's words: dataset name,
    chunk text, optional details, relevance. *)
Definition render_source (entry : nat * Source) : string :=
  let (i, source) := entry in
  nl ++ "Source " ++ str_of_nat i ++ ":" ++ nl
  ++ "Dataset: " ++ dataset source ++ nl
  ++ "Information: " ++ chunk source ++ nl
  ++ match details source with
     | Some d => "Details: " ++ d ++ nl
     | None => ""
     end
  ++ "Relevance: " ++ py_format (relevance source) ++ nl.

Definition join (l : list string) : string := fold_right append "" l.

(** The fixed persona preamble, up to the place of the question. *)
Definition persona_preamble : string :=
  "You are **SaarthiAI**, an expert agriculture assistant and guide helping users with questions about Indian agriculture, crop production, soil health, and general agricultural practices.

Your role is to:
- Answer questions about Indian agriculture using available data
- Guide users with general agricultural knowledge and best practices
- Provide helpful advice on farming, crops, soil management, and agricultural techniques
- Act as a knowledgeable mentor and guide for farmers and agriculture enthusiasts

User Question: ".

(** What follows the question and announces the retrieved data. *)
Definition retrieved_data_header : string :=
  "

Retrieved Data from Knowledge Base:
".

(** The explicit note used when no dataset matched. *)
Definition no_match_notice : string :=
  "
Note: No specific dataset matches found for this question. Please provide general guidance based on your agricultural expertise.
".

(** The fixed instructions that close the prompt. *)
Definition closing_instructions : string :=
  "

Based on the information above (if available), provide a helpful, clear, and conversational answer to the user's question. 

Guidelines:
1. **Always introduce yourself as SaarthiAI** at the beginning if this is a general question
2. Answer naturally and conversationally, acting as a helpful guide
3. If specific data is provided, use it and cite it appropriately
4. If no specific data is available, use your agricultural expertise to provide general guidance
5. For general agriculture questions, provide comprehensive guidance including:
   - Best practices and recommendations
   - Agricultural techniques and methods
   - Crop management advice
   - Soil health improvement tips
   - Common agricultural knowledge
6. Be encouraging and supportive, like a mentor
7. If applicable, mention that you can also provide specific data queries if they have questions about particular regions or crops
8. Include relevant numbers and statistics when data is available
9. If multiple sources provide data, synthesize them intelligently

Your Response:".

(** The prompt in the specification's words: preamble, question, then the
    first three sources rendered, or the note when there is none.  The fixed
    texts are written out in full above, not taken from the code's
    constants. *)
Definition prompt_as_specified (question : string) (retrieval : Retrieved.t)
  : string :=
  let sources := get (Retrieved.sources retrieval) [] in
  persona_preamble ++ question ++ retrieved_data_header
  ++ match sources with
     | [] => no_match_notice
     | _ :: _ => join (map render_source (enumerate (firstn 3 sources) 1))
     end
  ++ closing_instructions.

(** The enhancer was initialised and its call, on this prompt, raises. *)
Definition enhancer_call_fails (svc : GeminiService) (prompt : string)
  : Prop :=
  GEMINI_READY svc = true /\
  exists m e, model svc = Some m /\ m prompt = Raise e.

(** The enhancer was initialised and its call, on this prompt, returns. *)
Definition enhancer_call_returns (svc : GeminiService) (prompt text : string)
  : Prop :=
  GEMINI_READY svc = true /\
  exists m, model svc = Some m /\ m prompt = Ok text.

(** The same request with the caller's opt-out, ['use_gemini': false]. *)
Definition without_enhancer (data : option Request.t) : option Request.t :=
  match data with
  | Some d =>
      Some {| Request.question := Request.question d;
              Request.top_k := Request.top_k d;
              Request.use_gemini := Some false |}
  | None => None
  end.


(** The retrieved data with its ['sources'] replaced. *)
Definition with_sources (rd : Retrieved.t) (l : list Source) : Retrieved.t :=
  {| Retrieved.answer := Retrieved.answer rd;
     Retrieved.confidence := Retrieved.confidence rd;
     Retrieved.sources := Some l;
     Retrieved.search_results_count := Retrieved.search_results_count rd |}.

(** Whether a request asks for the enhancer: [data.get('use_gemini', True)]. *)
Definition wants_enhancer (data : option Request.t) : bool :=
  match data with
  | Some d => get (Request.use_gemini d) true
  | None => false
  end.

(** The enhancer failed to initialise: the service module, if it was
    imported, recorded [GEMINI_READY = False]. *)
Definition enhancer_init_failed (p : Process) : Prop :=
  forall svc, gemini_service p = Some svc -> GEMINI_READY svc = false.

(** A retrieved dictionary that lacks ['answer'] or ['confidence']. *)
Definition lacks_key (rd : Retrieved.t) : option string :=
  match Retrieved.answer rd, Retrieved.confidence rd with
  | None, _ => Some "answer"
  | Some _, None => Some "confidence"
  | Some _, Some _ => None
  end.

(** A confidence in the unit interval. *)
Definition unit_interval (c : Q) : Prop := (0 <= c)%Q /\ (c <= 1)%Q.

Definition confidence_in_range (rd : Retrieved.t) : Prop :=
  forall c, Retrieved.confidence rd = Some c -> unit_interval c.

(** The retriever a request is served with: the cached one, or the one the
    constructor gives. *)
Definition serves (p : Process) (qa : QASystem) : Prop :=
  exists p', init_qa_system p = (p', Ok qa).

(* ===================================================================== *)
(** ** Sample data *)
(* ===================================================================== *)

Definition sandy_question : string := "What crops grow best in sandy soil?".

Definition source_1 : Source :=
  {| dataset := "crop_production";
     chunk := "Groundnut yields 1.8 t/ha on sandy loam in Gujarat";
     details := Some "Kharif 2019";
     relevance := PyStr "0.91" |}.

Definition source_2 : Source :=
  {| dataset := "soil_health";
     chunk := "Sandy soils: low organic carbon, high infiltration";
     details := None;
     relevance := PyInt 87 |}.

Definition source_3 : Source :=
  {| dataset := "soil_health";
     chunk := "Watermelon tolerates sandy riverbeds";
     details := None;
     relevance := PyInt 80 |}.

Definition source_4 : Source :=
  {| dataset := "crop_production";
     chunk := "Pearl millet area in Rajasthan";
     details := Some "Arid zone";
     relevance := PyInt 75 |}.

Definition retrieval_two_sources : Retrieved.t :=
  {| Retrieved.answer := Some "Groundnut and watermelon suit sandy soil.";
     Retrieved.confidence := Some (82 # 100)%Q;
     Retrieved.sources := Some [source_1; source_2];
     Retrieved.search_results_count := Some 2%Z |}.

Definition retrieval_four_sources : Retrieved.t :=
  {| Retrieved.answer := Some "Groundnut and watermelon suit sandy soil.";
     Retrieved.confidence := Some (82 # 100)%Q;
     Retrieved.sources := Some [source_1; source_2; source_3; source_4];
     Retrieved.search_results_count := Some 4%Z |}.

Definition retrieval_no_sources : Retrieved.t :=
  {| Retrieved.answer := Some "";
     Retrieved.confidence := Some 0%Q;
     Retrieved.sources := Some [];
     Retrieved.search_results_count := Some 0%Z |}.

Definition retrieval_blank_answer : Retrieved.t :=
  {| Retrieved.answer := Some " ";
     Retrieved.confidence := Some (1 # 10)%Q;
     Retrieved.sources := Some [];
     Retrieved.search_results_count := Some 0%Z |}.

Definition failing_model : Model :=
  fun _ => Raise (Exception "429 quota exceeded").

Definition healthy_model : Model :=
  fun _ => Ok (" Groundnut does well on sandy loam." ++ nl).

Definition service_failing : GeminiService :=
  gemini_service_module (Ok failing_model).

Definition service_healthy : GeminiService :=
  gemini_service_module (Ok healthy_model).

Definition service_not_ready : GeminiService :=
  gemini_service_module (Raise (Exception "No API_KEY found")).

Definition retriever_of (rd : Retrieved.t) : QASystem :=
  {| answer_question := fun _ _ => Ok rd |}.

(** A process whose enhancer call raises at request time. *)
Definition process_failing (rd : Retrieved.t) : Process :=
  startup (Ok (Ok failing_model)) (Ok (retriever_of rd)).

(** A process whose enhancer failed to initialise. *)
Definition process_not_ready (rd : Retrieved.t) : Process :=
  startup (Ok (Raise (Exception "No API_KEY found"))) (Ok (retriever_of rd)).

Definition ask (q : string) : option Request.t :=
  Some {| Request.question := Some q;
          Request.top_k := None;
          Request.use_gemini := None |}.

(* ===================================================================== *)
(** ** gemini_service.py: the connection check *)
(* ===================================================================== *)

(** The fixed prompt of [check_gemini_connection]. *)
Definition probe_prompt : string := "Say 'Hello' if you're working.".

(** [check_gemini_connection()]: the pair it returns.  The whole body is
    inside the [try]. *)
Definition check_gemini_connection (svc : GeminiService)
  : Comp (bool * string) :=
  try_except
    (if negb (GEMINI_READY svc) || is_None (model svc) then
       ret (false, "Gemini not initialized")
     else
       text <- generate_content svc probe_prompt ;;
       ret (true, text))
    (fun e => ret (false, str_of_exn e)).

(* ===================================================================== *)
(** ** app.py: the download of the vector store *)
(* ===================================================================== *)

Definition VECTOR_DB_FILE : string := "backend/vector_database.pkl".

Definition GOOGLE_DRIVE_FILE_ID : string :=
  "1t5ZyZ9MFjSVOLZpZR-ZqvPzBBFyt6617".

(** [f"https://drive.google.com/uc?export=download&id={GOOGLE_DRIVE_FILE_ID}"] *)
Definition download_url : string :=
  "https://drive.google.com/uc?export=download&id=" ++ GOOGLE_DRIVE_FILE_ID.

Definition is_slash (c : ascii) : bool := Ascii.eqb c "/"%char.

(** [p[:p.rfind('/') + 1]]: the path up to and with its last slash. *)
Fixpoint head_of_path (p : string) : string :=
  match p with
  | EmptyString => EmptyString
  | String c p' =>
      let h := head_of_path p' in
      if is_empty h then
        (if is_slash c then String c EmptyString else EmptyString)
      else String c h
  end.

(** [head.rstrip('/')] *)
Fixpoint rstrip_slash (s : string) : string :=
  match s with
  | EmptyString => EmptyString
  | String c s' =>
      let r := rstrip_slash s' in
      if is_slash c && is_empty r then EmptyString else String c r
  end.

(** [os.path.dirname], on a POSIX path. *)
Definition dirname (p : string) : string :=
  let head := head_of_path p in
  if str_truthy head
     && negb (forallb is_slash (list_ascii_of_string head))
  then rstrip_slash head
  else head.

(** The files of the host, by path; a file's content is its bytes. *)
Definition Files : Type := string -> option string.

(** [os.path.exists(path)] *)
Definition path_exists (fs : Files) (path : string) : bool :=
  negb (is_None (fs path)).

Definition set_file (fs : Files) (path content : string) : Files :=
  fun p => if String.eqb p path then Some content else fs p.

(** [f.write(chunk)] on the file opened at [path]. *)
Definition write_chunk (path : string) (fs : Files) (chunk : string)
  : Files :=
  set_file fs path (get (fs path) "" ++ chunk).

(** What [requests.get(url, stream=True)] returns: whether
    [raise_for_status()] raises, the chunks [iter_content] yields, and the
    exception that ends the stream early, if any. *)
Record HttpResponse : Type := mkHttpResponse {
  raise_for_status : option exn;
  iter_content : list string;
  stream_error : option exn
}.

(** What the block asks of the host: the HTTP request, [os.makedirs] and
    [open(path, "wb")], each of which may raise. *)
Record Host : Type := mkHost {
  requests_get : string -> Exc HttpResponse;
  makedirs : string -> option exn;
  open_wb : string -> option exn
}.

Inductive NetEvent : Type :=
| HttpGet (url : string).

(** The module-level [if not os.path.exists(VECTOR_DB_FILE): ...] block: the
    files after it, the requests made, and whether it raised (which aborts
    the import of [app.py]). *)
Definition ensure_vector_db (host : Host) (fs : Files)
  : Files * list NetEvent * Exc unit :=
  if negb (path_exists fs VECTOR_DB_FILE) then
    let url := download_url in
    match requests_get host url with
    | Raise e => (fs, [HttpGet url], Raise e)
    | Ok response =>
        match raise_for_status response with
        | Some e => (fs, [HttpGet url], Raise e)
        | None =>
            match makedirs host (dirname VECTOR_DB_FILE) with
            | Some e => (fs, [HttpGet url], Raise e)
            | None =>
                match open_wb host VECTOR_DB_FILE with
                | Some e => (fs, [HttpGet url], Raise e)
                | None =>
                    let opened := set_file fs VECTOR_DB_FILE "" in
                    let written :=
                      fold_left (write_chunk VECTOR_DB_FILE)
                        (iter_content response) opened in
                    match stream_error response with
                    | Some e => (written, [HttpGet url], Raise e)
                    | None => (written, [HttpGet url], Ok tt)
                    end
                end
            end
        end
    end
  else (fs, [], Ok tt).

(* ===================================================================== *)
(** ** app.py: the other routes *)
(* ===================================================================== *)

(** The dictionary of [home]. *)
Module Home.

Record t : Type := mk {
  message : string;
  status : string;
  gemini_available : bool;
  endpoints : list (string * string)
}.

End Home.

Definition home (p : Process) : Home.t * Z :=
  ({| Home.message := "Intelligent Q&A API Server";
      Home.status := "running";
      Home.gemini_available := GEMINI_AVAILABLE p;
      Home.endpoints :=
        [ ("/query", "POST - Query the Q&A system");
          ("/health", "GET - Health check") ] |},
   200%Z).

(** The two dictionaries of [health]. *)
Inductive HealthBody : Type :=
| Healthy (status message : string) (gemini_available : bool)
| Unhealthy (status message : string).

Definition health (p : Process) : Process * (HealthBody * Z) :=
  match init_qa_system p with
  | (p', Ok qa) =>
      (p',
       (Healthy "healthy" "Q&A system is running" (GEMINI_AVAILABLE p'),
        200%Z))
  | (p', Raise e) => (p', (Unhealthy "error" (str_of_exn e), 500%Z))
  end.

(** The attributes [stats] reads on the retriever object, whose class is not
    part of these files: [qa.chunks] and [qa.vector_db['method']], each of
    which may raise. *)
Record QAAttributes : Type := mkQAAttributes {
  chunks : Exc (list string);
  vector_db_method : Exc string
}.

(** The two dictionaries of [stats]. *)
Inductive StatsBody : Type :=
| Stats (total_chunks : nat) (method : string) (gemini_available : bool)
    (datasets : list (string * string))
| StatsError (error : string).

Definition stats (attributes : QASystem -> QAAttributes) (p : Process)
  : Process * (StatsBody * Z) :=
  match init_qa_system p with
  | (p', Raise e) => (p', (StatsError (str_of_exn e), 500%Z))
  | (p', Ok qa) =>
      match chunks (attributes qa) with
      | Raise e => (p', (StatsError (str_of_exn e), 500%Z))
      | Ok cs =>
          match vector_db_method (attributes qa) with
          | Raise e => (p', (StatsError (str_of_exn e), 500%Z))
          | Ok m =>
              (p',
               (Stats (length cs) m (GEMINI_AVAILABLE p')
                  [ ("crop_production", "soil_health_complete_dataset.csv");
                    ("soil_health", "soil_health_complete_dataset.csv") ],
                200%Z))
          end
      end
  end.

(** The process with another outcome of the retriever's constructor. *)
Definition with_constructor (p : Process) (ctor : Exc QASystem) : Process :=
  {| GEMINI_AVAILABLE := GEMINI_AVAILABLE p;
     gemini_service := gemini_service p;
     IntelligentQASystem := ctor;
     qa_system := qa_system p |}.

Definition first_char (s : string) : option ascii :=
  match s with
  | EmptyString => None
  | String c _ => Some c
  end.

Fixpoint last_char (s : string) : option ascii :=
  match s with
  | EmptyString => None
  | String c s' =>
      match s' with
      | EmptyString => Some c
      | String _ _ => last_char s'
      end
  end.

(** Neither the first nor the last character is white space. *)
Definition trimmed (s : string) : Prop :=
  (forall c, first_char s = Some c -> isspace c = false)
  /\ (forall c, last_char s = Some c -> isspace c = false).

(** The status of a response of [query]. *)
Definition status_of (out : Process * list Event * (Body * Z)) : Z :=
  snd (snd out).

(** The prompts sent while serving a request. *)
Definition sent (out : Process * list Event * (Body * Z)) : list Event :=
  snd (fst out).

(** More sample data. *)
Definition download_ok : Host :=
  {| requests_get := fun _ =>
       Ok {| raise_for_status := None;
             iter_content := ["PK"; "data"; "end"];
             stream_error := None |};
     makedirs := fun _ => None;
     open_wb := fun _ => None |}.

Definition download_cut : Host :=
  {| requests_get := fun _ =>
       Ok {| raise_for_status := None;
             iter_content := ["PK"; "da"];
             stream_error := Some (Exception "Connection broken") |};
     makedirs := fun _ => None;
     open_wb := fun _ => None |}.

Definition download_forbidden : Host :=
  {| requests_get := fun _ =>
       Ok {| raise_for_status := Some (Exception "403 Client Error");
             iter_content := [];
             stream_error := None |};
     makedirs := fun _ => None;
     open_wb := fun _ => None |}.

Definition no_files : Files := fun _ => None.

Definition request_with (q : string) (k : option Z) (u : option bool)
  : Request.t :=
  {| Request.question := Some q; Request.top_k := k; Request.use_gemini := u |}.

Definition process_healthy (rd : Retrieved.t) : Process :=
  startup (Ok (Ok healthy_model)) (Ok (retriever_of rd)).

(* ===================================================================== *)
(** ** app.py: the request body as [get_json] gives it *)
(* ===================================================================== *)

(** A JSON value.  An object is carried by the keys the route reads. *)
#[warnings="-register-all"]
Inductive Json : Type :=
| JNull
| JBool (b : bool)
| JInt (n : Z)
| JFloat (x : Q)
| JString (s : string)
| JArray (items : list Json)
| JObject (d : Request.t).

(** [bool(data)] *)
Definition json_truthy (data : Json) : bool :=
  match data with
  | JNull => false
  | JBool b => b
  | JInt n => negb (n =? 0)%Z
  | JFloat x => negb (Qeq_bool x 0)
  | JString s => str_truthy s
  | JArray items => list_truthy items
  | JObject d => Request.truthy d
  end.

(** [pat in s] on two strings. *)
Fixpoint is_substring (pat s : string) : bool :=
  String.prefix pat s
  || match s with
     | EmptyString => false
     | String _ s' => is_substring pat s'
     end.

Definition is_question_item (j : Json) : bool :=
  match j with
  | JString s => String.eqb s "question"
  | _ => false
  end.

(** ['question' in data]: a key test on an object, a membership test on an
    array, a substring test on a string, a [TypeError] on the rest. *)
Definition question_in (data : Json) : Exc bool :=
  match data with
  | JObject d => Ok (negb (is_None (Request.question d)))
  | JArray items => Ok (existsb is_question_item items)
  | JString s => Ok (is_substring "question" s)
  | JNull => Raise (TypeError "argument of type 'NoneType' is not iterable")
  | JBool _ => Raise (TypeError "argument of type 'bool' is not iterable")
  | JInt _ => Raise (TypeError "argument of type 'int' is not iterable")
  | JFloat _ => Raise (TypeError "argument of type 'float' is not iterable")
  end.

(** The body of the outer [try] of [query], from [request.get_json()] on.
    [payload] is what [get_json] returns, or the exception it raises (no
    body, a body that is not JSON, another content type).  On an object the
    rest is [query_body]; on an array or a string [data['question']]
    raises. *)
Definition route_body (p : Process) (qa : QASystem) (payload : Exc Json)
  : Comp (Body * Z) :=
  data <- lift payload ;;
  if negb (json_truthy data) then
    ret (Error "Missing question parameter", 400%Z)
  else
    found <- lift (question_in data) ;;
    if negb found then
      ret (Error "Missing question parameter", 400%Z)
    else
      match data with
      | JObject d => query_body p qa (Some d)
      | JArray _ =>
          raise (TypeError "list indices must be integers or slices, not str")
      | JString _ =>
          raise (TypeError "string indices must be integers, not 'str'")
      | _ => raise (TypeError "object is not subscriptable")
      end.

(** The route, from the raw outcome of [get_json]. *)
Definition query_route (p : Process) (payload : Exc Json)
  : Process * list Event * (Body * Z) :=
  match init_qa_system p with
  | (p', Raise e) => (p', [], (ErrorWithDetails (str_of_exn e), 500%Z))
  | (p', Ok qa) =>
      match route_body p' qa payload with
      | (l, Ok r) => (p', l, r)
      | (l, Raise e) => (p', l, (ErrorWithDetails (str_of_exn e), 500%Z))
      end
  end.

(* ===================================================================== *)
(** ** app.py: the download, with writes that may fail *)
(* ===================================================================== *)

(** What the disk does to the opened file: whether the [k]-th [f.write]
    raises, whether closing the file raises, and the content the file is left
    with when either happened. *)
Record Disk : Type := mkDisk {
  write_raises : nat -> option exn;
  close_raises : option exn;
  left_behind : string
}.

(** The [for chunk in ...: f.write(chunk)] loop from the [k]-th write on:
    the files, and the exception of the first write that raised. *)
Fixpoint write_chunks_io (disk : Disk) (path : string) (k : nat)
    (chunks : list string) (fs : Files) : Files * option exn :=
  match chunks with
  | [] => (fs, None)
  | chunk :: rest =>
      match write_raises disk k with
      | Some e => (fs, Some e)
      | None => write_chunks_io disk path (S k) rest (write_chunk path fs chunk)
      end
  end.

(** Leaving the [with] block closes the file; an exception of the close
    takes the place of the pending one. *)
Definition leave_with (disk : Disk) (pending : option exn) : option exn :=
  match close_raises disk with
  | Some e => Some e
  | None => pending
  end.

(** The download block on a disk that may fail. *)
Definition ensure_vector_db_io (host : Host) (disk : Disk) (fs : Files)
  : Files * list NetEvent * Exc unit :=
  if negb (path_exists fs VECTOR_DB_FILE) then
    let url := download_url in
    match requests_get host url with
    | Raise e => (fs, [HttpGet url], Raise e)
    | Ok response =>
        match raise_for_status response with
        | Some e => (fs, [HttpGet url], Raise e)
        | None =>
            match makedirs host (dirname VECTOR_DB_FILE) with
            | Some e => (fs, [HttpGet url], Raise e)
            | None =>
                match open_wb host VECTOR_DB_FILE with
                | Some e => (fs, [HttpGet url], Raise e)
                | None =>
                    let opened := set_file fs VECTOR_DB_FILE "" in
                    let (written, write_error) :=
                      write_chunks_io disk VECTOR_DB_FILE 0
                        (iter_content response) opened in
                    let pending :=
                      match write_error with
                      | Some e => Some e
                      | None => stream_error response
                      end in
                    let files :=
                      match write_error, close_raises disk with
                      | None, None => written
                      | _, _ =>
                          set_file fs VECTOR_DB_FILE (left_behind disk)
                      end in
                    match leave_with disk pending with
                    | Some e => (files, [HttpGet url], Raise e)
                    | None => (files, [HttpGet url], Ok tt)
                    end
                end
            end
        end
    end
  else (fs, [], Ok tt).

(** A disk on which no write and no close raises. *)
Definition disk_sound (disk : Disk) : Prop :=
  (forall k, write_raises disk k = None) /\ close_raises disk = None.

(* ===================================================================== *)
(** ** gemini_service.py on sources that may lack a key *)
(* ===================================================================== *)

(** One entry of [retrieved_data['sources']] as a dictionary whose keys may
    all be missing. *)
Record RawSource : Type := mkRawSource {
  raw_dataset : option string;
  raw_chunk : option string;
  raw_details : option string;
  raw_relevance : option PyScalar
}.

Module RawRetrieved.

Record t : Type := mk {
  answer : option string;
  confidence : option Q;
  sources : option (list RawSource);
  search_results_count : option Z
}.

Definition truthy (d : t) : bool :=
  match answer d, confidence d, sources d, search_results_count d with
  | None, None, None, None => false
  | _, _, _, _ => true
  end.

End RawRetrieved.

Module RawEnhanced.

Record t : Type := mk {
  answer : string;
  confidence : Q;
  sources : list RawSource;
  ai_enhanced : bool;
  general_guidance : option bool;
  fallback : option bool
}.

End RawEnhanced.

Definition raw_has_data (retrieved_data : RawRetrieved.t) : bool :=
  RawRetrieved.truthy retrieved_data
  && list_truthy (get (RawRetrieved.sources retrieved_data) [])
  && (0 <? length (get (RawRetrieved.sources retrieved_data) []))%nat.

(** One turn of the loop: [source['dataset']], [source['chunk']] and
    [source['relevance']] raise [KeyError] on a missing key. *)
Definition add_raw_source (context : string) (entry : nat * RawSource)
  : Comp string :=
  let (i, source) := entry in
  let context := context ++ (nl ++ "Source " ++ str_of_nat i ++ ":" ++ nl) in
  dataset <- getitem "dataset" (raw_dataset source) ;;
  let context := context ++ ("Dataset: " ++ dataset ++ nl) in
  chunk <- getitem "chunk" (raw_chunk source) ;;
  let context := context ++ ("Information: " ++ chunk ++ nl) in
  let context :=
    match raw_details source with
    | Some d => context ++ ("Details: " ++ d ++ nl)
    | None => context
    end in
  relevance <- getitem "relevance" (raw_relevance source) ;;
  ret (context ++ ("Relevance: " ++ py_format relevance ++ nl)).

Fixpoint add_raw_sources (entries : list (nat * RawSource))
    (context : string) : Comp string :=
  match entries with
  | [] => ret context
  | entry :: rest =>
      context <- add_raw_source context entry ;;
      add_raw_sources rest context
  end.

Definition build_context_raw (user_question : string)
    (retrieved_data : RawRetrieved.t) : Comp string :=
  let context := context_head ++ user_question ++ context_tail in
  let sources := get (RawRetrieved.sources retrieved_data) [] in
  if list_truthy sources && (0 <? length sources)%nat then
    add_raw_sources (enumerate (firstn 3 sources) 1) context
  else
    ret (context ++ no_match_note).

Definition raw_fallback_result (retrieved_data : RawRetrieved.t)
  : RawEnhanced.t :=
  let fallback_answer := get (RawRetrieved.answer retrieved_data) "" in
  let fallback_answer :=
    if negb (str_truthy fallback_answer) || is_empty (strip fallback_answer)
    then canned_answer
    else fallback_answer in
  {| RawEnhanced.answer := fallback_answer;
     RawEnhanced.confidence :=
       get (RawRetrieved.confidence retrieved_data) 0%Q;
     RawEnhanced.sources := get (RawRetrieved.sources retrieved_data) [];
     RawEnhanced.ai_enhanced := false;
     RawEnhanced.general_guidance := None;
     RawEnhanced.fallback := Some true |}.

(** [generate_smart_response] on such data: the prompt is built before the
    [try], so a [KeyError] of the loop leaves the function. *)
Definition generate_smart_response_raw (svc : GeminiService)
    (user_question : string) (retrieved_data : RawRetrieved.t)
  : Comp RawEnhanced.t :=
  if negb (GEMINI_READY svc) || is_None (model svc) then
    raise (Exception "Gemini not available")
  else
    let has_data := raw_has_data retrieved_data in
    context <- build_context_raw user_question retrieved_data ;;
    let prompt := context ++ prompt_tail in
    try_except
      (text <- generate_content svc prompt ;;
       let enhanced_answer := strip text in
       ret {| RawEnhanced.answer := enhanced_answer;
              RawEnhanced.confidence :=
                if has_data
                then get (RawRetrieved.confidence retrieved_data) 0%Q
                else (1 # 2)%Q;
              RawEnhanced.sources :=
                get (RawRetrieved.sources retrieved_data) [];
              RawEnhanced.ai_enhanced := true;
              RawEnhanced.general_guidance := Some (negb has_data);
              RawEnhanced.fallback := None |})
      (fun _ => ret (raw_fallback_result retrieved_data)).

(** The first of the keys the loop reads that a source lacks. *)
Definition first_missing_key (source : RawSource) : option string :=
  match raw_dataset source, raw_chunk source, raw_relevance source with
  | None, _, _ => Some "dataset"
  | Some _, None, _ => Some "chunk"
  | Some _, Some _, None => Some "relevance"
  | Some _, Some _, Some _ => None
  end.

Fixpoint find_missing_key (sources : list RawSource) : option string :=
  match sources with
  | [] => None
  | source :: rest =>
      match first_missing_key source with
      | Some k => Some k
      | None => find_missing_key rest
      end
  end.

(** The key whose absence stops the prompt: the first one missing among the
    first three sources. *)
Definition prompt_key_error (retrieved_data : RawRetrieved.t)
  : option string :=
  find_missing_key (firstn 3 (get (RawRetrieved.sources retrieved_data) [])).

(** A source with all its keys, as a dictionary. *)
Definition raw_of_source (s : Source) : RawSource :=
  {| raw_dataset := Some (dataset s);
     raw_chunk := Some (chunk s);
     raw_details := details s;
     raw_relevance := Some (relevance s) |}.

Definition raw_of_retrieved (rd : Retrieved.t) : RawRetrieved.t :=
  {| RawRetrieved.answer := Retrieved.answer rd;
     RawRetrieved.confidence := Retrieved.confidence rd;
     RawRetrieved.sources :=
       option_map (map raw_of_source) (Retrieved.sources rd);
     RawRetrieved.search_results_count :=
       Retrieved.search_results_count rd |}.

Definition raw_of_enhanced (r : Enhanced.t) : RawEnhanced.t :=
  {| RawEnhanced.answer := Enhanced.answer r;
     RawEnhanced.confidence := Enhanced.confidence r;
     RawEnhanced.sources := map raw_of_source (Enhanced.sources r);
     RawEnhanced.ai_enhanced := Enhanced.ai_enhanced r;
     RawEnhanced.general_guidance := Enhanced.general_guidance r;
     RawEnhanced.fallback := Enhanced.fallback r |}.

Definition map_result {A B : Type} (f : A -> B) (c : Comp A) : Comp B :=
  match c with
  | (l, Ok a) => (l, Ok (f a))
  | (l, Raise e) => (l, Raise e)
  end.

(** Sample data with a missing key. *)
Definition source_without_chunk : RawSource :=
  {| raw_dataset := Some "soil_health";
     raw_chunk := None;
     raw_details := None;
     raw_relevance := Some (PyInt 70) |}.

Definition retrieval_broken_source : RawRetrieved.t :=
  {| RawRetrieved.answer := Some "Sandy soils drain fast.";
     RawRetrieved.confidence := Some (6 # 10)%Q;
     RawRetrieved.sources :=
       Some [raw_of_source source_1; source_without_chunk];
     RawRetrieved.search_results_count := Some 2%Z |}.

Definition disk_full : Disk :=
  {| write_raises := fun k =>
       if (k =? 1)%nat then Some (Exception "No space left on device")
       else None;
     close_raises := None;
     left_behind := "PK" |}.

Definition disk_fine : Disk :=
  {| write_raises := fun _ => None;
     close_raises := None;
     left_behind := "" |}.

(* ===================================================================== *)
(** ** Strings *)
(* ===================================================================== *)

Lemma append_assoc (a b c : string) : (a ++ b) ++ c = a ++ (b ++ c).
Proof.
  induction a as [|x a IH]; simpl; [reflexivity | now rewrite IH].
Qed.

Lemma append_empty_r (a : string) : a ++ "" = a.
Proof.
  induction a as [|x a IH]; simpl; [reflexivity | now rewrite IH].
Qed.

Lemma is_empty_true (s : string) : is_empty s = true <-> s = "".
Proof.
  destruct s; simpl; split; congruence.
Qed.

Lemma rstrip_blank (s : string) : is_empty (rstrip s) = blank s.
Proof.
  unfold blank.
  induction s as [|c s IH]; simpl; [reflexivity|].
  rewrite <- IH.
  destruct (isspace c), (is_empty (rstrip s)); reflexivity.
Qed.

(** [s.strip() == ""] holds exactly of the blank strings. *)
Lemma strip_blank (s : string) : is_empty (strip s) = blank s.
Proof.
  unfold strip.
  induction s as [|c s IH]; [reflexivity|].
  unfold blank in *. cbn [lstrip list_ascii_of_string forallb].
  destruct (isspace c) eqn:Hc.
  - exact IH.
  - cbn [rstrip]. rewrite Hc. reflexivity.
Qed.

Lemma canned_answer_not_empty : canned_answer <> "".
Proof. discriminate. Qed.

Lemma canned_answer_not_blank : blank canned_answer = false.
Proof. reflexivity. Qed.

(** The test of the [except] branch, [not a or a.strip() == ""], is the
    blankness of [a]. *)
Lemma fallback_test (a : string) :
  negb (str_truthy a) || is_empty (strip a) = blank a.
Proof.
  rewrite strip_blank. destruct a; reflexivity.
Qed.

Lemma fallback_result_answer (rd : Retrieved.t) :
  Enhanced.answer (fallback_result rd) =
  let a := get (Retrieved.answer rd) "" in
  if blank a then canned_answer else a.
Proof.
  unfold fallback_result. cbn [Enhanced.answer].
  rewrite fallback_test. reflexivity.
Qed.

Lemma fallback_result_answer_not_empty (rd : Retrieved.t) :
  Enhanced.answer (fallback_result rd) <> "".
Proof.
  rewrite fallback_result_answer. cbv zeta.
  destruct (blank (get (Retrieved.answer rd) "")) eqn:Hb.
  - apply canned_answer_not_empty.
  - intros E. rewrite E in Hb. discriminate.
Qed.

(* ===================================================================== *)
(** ** The composer, path by path *)
(* ===================================================================== *)

Lemma composer_not_ready (svc : GeminiService) (q : string)
    (rd : Retrieved.t) :
  GEMINI_READY svc = false \/ model svc = None ->
  generate_smart_response svc q rd =
  ([], Raise (Exception "Gemini not available")).
Proof.
  unfold generate_smart_response.
  intros [H | H]; rewrite H.
  - reflexivity.
  - rewrite orb_true_r. reflexivity.
Qed.

Lemma composer_call_fails (svc : GeminiService) (q : string)
    (rd : Retrieved.t) :
  enhancer_call_fails svc (build_prompt q rd) ->
  generate_smart_response svc q rd =
  ([GenerateContent (build_prompt q rd)], Ok (fallback_result rd)).
Proof.
  intros [Hr (m & e & Hm & He)].
  unfold generate_smart_response, generate_content.
  rewrite Hr, Hm. cbn. rewrite He. reflexivity.
Qed.

Lemma composer_call_returns (svc : GeminiService) (q text : string)
    (rd : Retrieved.t) :
  enhancer_call_returns svc (build_prompt q rd) text ->
  generate_smart_response svc q rd =
  ([GenerateContent (build_prompt q rd)],
   Ok {| Enhanced.answer := strip text;
         Enhanced.confidence :=
           if has_data rd then get (Retrieved.confidence rd) 0%Q
           else (1 # 2)%Q;
         Enhanced.sources := get (Retrieved.sources rd) [];
         Enhanced.ai_enhanced := true;
         Enhanced.general_guidance := Some (negb (has_data rd));
         Enhanced.fallback := None |}).
Proof.
  intros [Hr (m & Hm & He)].
  unfold generate_smart_response, generate_content.
  rewrite Hr, Hm. cbn. rewrite He. reflexivity.
Qed.

(** Every run of the composer is one of the three above. *)
Lemma composer_cases (svc : GeminiService) (q : string) (rd : Retrieved.t) :
  (GEMINI_READY svc = false \/ model svc = None)
  \/ enhancer_call_fails svc (build_prompt q rd)
  \/ exists text, enhancer_call_returns svc (build_prompt q rd) text.
Proof.
  unfold enhancer_call_fails, enhancer_call_returns.
  destruct (GEMINI_READY svc); [|now left; left].
  destruct (model svc) as [m|]; [|now left; right].
  right. destruct (m (build_prompt q rd)) as [text|e] eqn:E.
  - right. exists text. split; [reflexivity|]. now exists m.
  - left. split; [reflexivity|]. now exists m, e.
Qed.

Lemma has_data_sources (rd : Retrieved.t) :
  has_data rd = list_truthy (get (Retrieved.sources rd) []).
Proof.
  unfold has_data, sources_truthy, len_sources, Retrieved.truthy.
  destruct rd as [a c [[|s l]|] n]; cbn; try reflexivity;
    destruct a, c, n; reflexivity.
Qed.

(* ===================================================================== *)
(** ** The prompt *)
(* ===================================================================== *)

Lemma add_source_render (context : string) (entry : nat * Source) :
  add_source context entry = context ++ render_source entry.
Proof.
  destruct entry as [i source].
  unfold add_source, render_source.
  destruct (details source); rewrite !append_assoc; reflexivity.
Qed.

Lemma fold_add_source (l : list (nat * Source)) (context : string) :
  fold_left add_source l context = context ++ join (map render_source l).
Proof.
  revert context.
  induction l as [|entry l IH]; intros context; cbn [fold_left map join fold_right].
  - now rewrite append_empty_r.
  - rewrite IH, add_source_render, append_assoc. reflexivity.
Qed.

Lemma fixed_texts :
  context_head = persona_preamble
  /\ context_tail = retrieved_data_header
  /\ no_match_note = no_match_notice
  /\ prompt_tail = closing_instructions.
Proof.
  repeat split; vm_compute; reflexivity.
Qed.

Lemma build_prompt_as_specified (q : string) (rd : Retrieved.t) :
  build_prompt q rd = prompt_as_specified q rd.
Proof.
  destruct fixed_texts as (H1 & H2 & H3 & H4).
  unfold build_prompt, build_context, prompt_as_specified,
    sources_truthy, len_sources.
  rewrite <- H1, <- H2, <- H3, <- H4.
  destruct (Retrieved.sources rd) as [[|s l]|]; cbn [get list_truthy length andb Nat.ltb Nat.leb].
  - rewrite !append_assoc. reflexivity.
  - rewrite fold_add_source, !append_assoc. reflexivity.
  - rewrite !append_assoc. reflexivity.
Qed.

Lemma enumerate_length {A : Type} (l : list A) (start : nat) :
  length (enumerate l start) = length l.
Proof.
  unfold enumerate. rewrite length_combine, length_seq. apply Nat.min_id.
Qed.

Lemma enumerate_indices {A : Type} (l : list A) (start : nat) :
  map fst (enumerate l start) = seq start (length l).
Proof.
  unfold enumerate. revert start.
  induction l as [|a l IH]; intros start; cbn; [reflexivity|].
  now rewrite IH.
Qed.

Lemma firstn_3_idempotent {A : Type} (l : list A) :
  firstn 3 (firstn 3 l) = firstn 3 l.
Proof.
  destruct l as [|a [|b [|c l]]]; reflexivity.
Qed.

(** Only the first three sources reach the prompt. *)
Lemma build_prompt_prefix (q : string) (rd : Retrieved.t) (l : list Source) :
  Retrieved.sources rd = Some l ->
  build_prompt q rd = build_prompt q (with_sources rd (firstn 3 l)).
Proof.
  intros Hl. rewrite !build_prompt_as_specified.
  unfold prompt_as_specified, with_sources. rewrite Hl. cbn [Retrieved.sources get].
  rewrite firstn_3_idempotent.
  destruct l as [|a l]; reflexivity.
Qed.

(* ===================================================================== *)
(** ** Properties of [generate_smart_response] *)
(* ===================================================================== *)

Lemma service_failing_fails (prompt : string) :
  enhancer_call_fails service_failing prompt.
Proof.
  split; [reflexivity|].
  exists failing_model, (Exception "429 quota exceeded"). now split.
Qed.

Lemma service_healthy_returns (prompt : string) :
  enhancer_call_returns service_healthy prompt
    (" Groundnut does well on sandy loam." ++ nl).
Proof.
  split; [reflexivity|]. exists healthy_model. now split.
Qed.

(** C10.  When [GEMINI_READY] is false or [model] is [None],
    [generate_smart_response] raises ("Gemini not available") without sending
    any prompt and without returning a fallback envelope; and whenever it does
    return an envelope flagged [fallback], the enhancer was initialised, the
    prompt was built and sent, and the generate call (or the reading of its
    result) raised. *)
Theorem composer_raises_when_not_ready (svc : GeminiService) (q : string)
    (rd : Retrieved.t) :
  (GEMINI_READY svc = false \/ model svc = None ->
   generate_smart_response svc q rd =
   ([], Raise (Exception "Gemini not available")))
  /\
  (forall l r,
     generate_smart_response svc q rd = (l, Ok r) ->
     Enhanced.fallback r = Some true ->
     l = [GenerateContent (build_prompt q rd)]
     /\ enhancer_call_fails svc (build_prompt q rd)).
Proof.
  split; [apply composer_not_ready|].
  intros l r Hrun Hfb.
  destruct (composer_cases svc q rd) as [Hn | [Hf | [text Ht]]].
  - rewrite (composer_not_ready _ _ _ Hn) in Hrun. discriminate.
  - rewrite (composer_call_fails _ _ _ Hf) in Hrun.
    injection Hrun as <- _. now split.
  - rewrite (composer_call_returns _ _ _ _ Ht) in Hrun.
    injection Hrun as _ <-. discriminate.
Qed.

Lemma composer_raises_when_not_ready_witness :
  (GEMINI_READY service_not_ready = false \/ model service_not_ready = None)
  /\ generate_smart_response service_not_ready sandy_question
       retrieval_two_sources
     = ([], Raise (Exception "Gemini not available"))
  /\ enhancer_call_fails service_failing
       (build_prompt sandy_question retrieval_no_sources).
Proof.
  split; [left; reflexivity|].
  split.
  - apply (proj1 (composer_raises_when_not_ready service_not_ready
                    sandy_question retrieval_two_sources)).
    left; reflexivity.
  - apply (proj2 (composer_raises_when_not_ready service_failing
                    sandy_question retrieval_no_sources)
             [GenerateContent (build_prompt sandy_question retrieval_no_sources)]
             (fallback_result retrieval_no_sources));
      reflexivity.
Defined.

(** C1, as the code has it.  When the enhancer call raises, no exception
    leaves [generate_smart_response]: it returns an envelope with
    [ai_enhanced = false], [fallback = true] and a non-empty answer, which is
    [retrieval.answer] when that has a character other than white space, and
    the canned SaarthiAI string otherwise. *)
Theorem enhancer_error_contained (svc : GeminiService) (q : string)
    (rd : Retrieved.t) :
  enhancer_call_fails svc (build_prompt q rd) ->
  exists r,
    generate_smart_response svc q rd
    = ([GenerateContent (build_prompt q rd)], Ok r)
    /\ Enhanced.ai_enhanced r = false
    /\ Enhanced.fallback r = Some true
    /\ Enhanced.answer r <> ""
    /\ Enhanced.answer r =
       (let a := get (Retrieved.answer rd) "" in
        if blank a then canned_answer else a).
Proof.
  intros Hf. exists (fallback_result rd).
  split; [now apply composer_call_fails|].
  split; [reflexivity|]. split; [reflexivity|].
  split; [apply fallback_result_answer_not_empty|].
  apply fallback_result_answer.
Qed.

Lemma enhancer_error_contained_witness :
  enhancer_call_fails service_failing
    (build_prompt sandy_question retrieval_two_sources)
  /\ exists r,
       generate_smart_response service_failing sandy_question
         retrieval_two_sources
       = ([GenerateContent (build_prompt sandy_question retrieval_two_sources)],
          Ok r)
       /\ Enhanced.ai_enhanced r = false
       /\ Enhanced.fallback r = Some true
       /\ Enhanced.answer r <> ""
       /\ Enhanced.answer r = "Groundnut and watermelon suit sandy soil.".
Proof.
  split.
  - split; [reflexivity|].
    exists failing_model, (Exception "429 quota exceeded"). now split.
  - apply (enhancer_error_contained service_failing sandy_question
             retrieval_two_sources).
    split; [reflexivity|].
    exists failing_model, (Exception "429 quota exceeded"). now split.
Defined.

(** C1, as stated, fails on an answer made of white space: the retrieved
    answer [" "] is not empty, yet the envelope carries the canned string and
    not the retrieved answer. *)
Lemma blank_answer_is_replaced :
  enhancer_call_fails service_failing
    (build_prompt sandy_question retrieval_blank_answer)
  /\ Retrieved.answer retrieval_blank_answer = Some " "
  /\ fallback_answer_as_specified retrieval_blank_answer = " "
  /\ exists r,
       generate_smart_response service_failing sandy_question
         retrieval_blank_answer
       = ([GenerateContent (build_prompt sandy_question retrieval_blank_answer)],
          Ok r)
       /\ Enhanced.answer r = canned_answer
       /\ Enhanced.answer r
          <> fallback_answer_as_specified retrieval_blank_answer.
Proof.
  split; [apply service_failing_fails|].
  split; [reflexivity|]. split; [reflexivity|].
  exists (fallback_result retrieval_blank_answer).
  split; [reflexivity|]. split; [reflexivity|]. discriminate.
Qed.

(** C5.  When the enhancer call succeeds and the retrieved sources are
    empty, the envelope has confidence exactly 0.5 and
    [general_guidance = true]. *)
Theorem general_guidance_when_no_sources (svc : GeminiService)
    (q text : string) (rd : Retrieved.t) :
  enhancer_call_returns svc (build_prompt q rd) text ->
  get (Retrieved.sources rd) [] = [] ->
  exists r,
    generate_smart_response svc q rd
    = ([GenerateContent (build_prompt q rd)], Ok r)
    /\ Enhanced.confidence r = (1 # 2)%Q
    /\ Enhanced.general_guidance r = Some true.
Proof.
  intros Ht Hs.
  rewrite (composer_call_returns _ _ _ _ Ht).
  eexists. split; [reflexivity|].
  cbn [Enhanced.confidence Enhanced.general_guidance].
  rewrite has_data_sources, Hs. now split.
Qed.

Lemma general_guidance_when_no_sources_witness :
  get (Retrieved.sources retrieval_no_sources) [] = []
  /\ exists r,
       generate_smart_response service_healthy sandy_question
         retrieval_no_sources
       = ([GenerateContent (build_prompt sandy_question retrieval_no_sources)],
          Ok r)
       /\ Enhanced.confidence r = (1 # 2)%Q
       /\ Enhanced.general_guidance r = Some true.
Proof.
  split; [reflexivity|].
  apply (general_guidance_when_no_sources service_healthy sandy_question
           (" Groundnut does well on sandy loam." ++ nl) retrieval_no_sources).
  - split; [reflexivity|]. exists healthy_model. now split.
  - reflexivity.
Defined.

(** C6.  When the enhancer call succeeds and the retrieved sources are not
    empty, the envelope's confidence is [retrieval.confidence] and its
    sources are the whole retrieved list, although the prompt that was sent is
    the one built from the first three sources alone. *)
Theorem sources_kept_whole (svc : GeminiService) (q text : string)
    (rd : Retrieved.t) (l : list Source) (c : Q) :
  enhancer_call_returns svc (build_prompt q rd) text ->
  Retrieved.sources rd = Some l ->
  l <> [] ->
  Retrieved.confidence rd = Some c ->
  exists r,
    generate_smart_response svc q rd
    = ([GenerateContent (build_prompt q (with_sources rd (firstn 3 l)))], Ok r)
    /\ Enhanced.confidence r = c
    /\ Enhanced.sources r = l
    /\ Enhanced.ai_enhanced r = true.
Proof.
  intros Ht Hl Hne Hc.
  rewrite (composer_call_returns _ _ _ _ Ht).
  rewrite <- (build_prompt_prefix q rd l Hl).
  eexists. split; [reflexivity|].
  cbn [Enhanced.confidence Enhanced.sources Enhanced.ai_enhanced].
  rewrite has_data_sources, Hl, Hc. cbn [get].
  destruct l; [contradiction|]. now split.
Qed.

Lemma sources_kept_whole_witness :
  length [source_1; source_2; source_3; source_4] = 4
  /\ exists r,
       generate_smart_response service_healthy sandy_question
         retrieval_four_sources
       = ([GenerateContent
             (build_prompt sandy_question
                (with_sources retrieval_four_sources
                   [source_1; source_2; source_3]))],
          Ok r)
       /\ Enhanced.confidence r = (82 # 100)%Q
       /\ Enhanced.sources r = [source_1; source_2; source_3; source_4]
       /\ Enhanced.ai_enhanced r = true.
Proof.
  split; [reflexivity|].
  apply (sources_kept_whole service_healthy sandy_question
           (" Groundnut does well on sandy loam." ++ nl)
           retrieval_four_sources
           [source_1; source_2; source_3; source_4] (82 # 100)%Q).
  - split; [reflexivity|]. exists healthy_model. now split.
  - reflexivity.
  - discriminate.
  - reflexivity.
Defined.

(** C7.  The prompt the code builds is the fixed persona preamble, the
    question verbatim, and then either the rendering of the first three
    sources at most (numbered from 1; dataset, chunk, details when the key is
    there, relevance), or, when there is no source, the note asking for
    general guidance; the fixed instructions close it.  This is the prompt
    handed to the model whenever the enhancer is ready. *)
Theorem prompt_structure (q : string) (rd : Retrieved.t) :
  build_prompt q rd = prompt_as_specified q rd
  /\ length (enumerate (firstn 3 (get (Retrieved.sources rd) [])) 1) <= 3
  /\ map fst (enumerate (firstn 3 (get (Retrieved.sources rd) [])) 1)
     = seq 1 (Nat.min 3 (length (get (Retrieved.sources rd) [])))
  /\ forall svc m,
       GEMINI_READY svc = true -> model svc = Some m ->
       fst (generate_smart_response svc q rd)
       = [GenerateContent (prompt_as_specified q rd)].
Proof.
  split; [apply build_prompt_as_specified|].
  split; [rewrite enumerate_length; apply firstn_le_length|].
  split.
  - rewrite enumerate_indices, length_firstn. reflexivity.
  - intros svc m Hr Hm.
    rewrite <- build_prompt_as_specified.
    unfold generate_smart_response, generate_content.
    rewrite Hr, Hm. cbn.
    destruct (m (build_prompt q rd)); reflexivity.
Qed.

Lemma prompt_structure_witness :
  build_prompt sandy_question retrieval_four_sources
  = prompt_as_specified sandy_question retrieval_four_sources
  /\ fst (generate_smart_response service_healthy sandy_question
            retrieval_four_sources)
     = [GenerateContent
          (prompt_as_specified sandy_question retrieval_four_sources)].
Proof.
  destruct (prompt_structure sandy_question retrieval_four_sources)
    as (H1 & _ & _ & H4).
  split; [exact H1|].
  apply (H4 service_healthy healthy_model); reflexivity.
Defined.

(* ===================================================================== *)
(** ** The route, path by path *)
(* ===================================================================== *)

Lemma init_qa_system_keeps (p p' : Process) (r : Exc QASystem) :
  init_qa_system p = (p', r) ->
  GEMINI_AVAILABLE p' = GEMINI_AVAILABLE p
  /\ gemini_service p' = gemini_service p.
Proof.
  unfold init_qa_system.
  destruct (qa_system p); [|destruct (IntelligentQASystem p)];
    intros E; injection E as <- <-; now split.
Qed.

Lemma plain_response_present (q : string) (rd : Retrieved.t)
    (fb : option bool) (a : string) (c : Q) :
  Retrieved.answer rd = Some a ->
  Retrieved.confidence rd = Some c ->
  plain_response q rd fb =
  ([], Ok {| Response.question := q;
             Response.answer := a;
             Response.confidence := c;
             Response.sources := get (Retrieved.sources rd) [];
             Response.num_results :=
               get (Retrieved.search_results_count rd) 0%Z;
             Response.ai_enhanced := false;
             Response.general_guidance := None;
             Response.fallback := fb |}).
Proof.
  intros Ha Hc. unfold plain_response. rewrite Ha, Hc. reflexivity.
Qed.

Lemma plain_response_absent (q : string) (rd : Retrieved.t)
    (fb : option bool) (k : string) :
  lacks_key rd = Some k ->
  plain_response q rd fb = ([], Raise (KeyError k)).
Proof.
  unfold lacks_key, plain_response.
  destruct (Retrieved.answer rd), (Retrieved.confidence rd);
    intros E; inversion E; reflexivity.
Qed.

Lemma plain_response_cases (q : string) (rd : Retrieved.t) :
  (exists a c,
      Retrieved.answer rd = Some a /\ Retrieved.confidence rd = Some c)
  \/ exists k, lacks_key rd = Some k.
Proof.
  unfold lacks_key.
  destruct (Retrieved.answer rd) as [a|], (Retrieved.confidence rd) as [c|];
    eauto.
Qed.

(** The [try]/[except] of the route when the composer raises. *)
Lemma compose_response_not_ready (p : Process) (q : string)
    (rd : Retrieved.t) :
  GEMINI_AVAILABLE p = true ->
  enhancer_init_failed p ->
  compose_response p q rd true = plain_response q rd (Some true).
Proof.
  intros Ha Hf. unfold compose_response, call_generate_smart_response.
  rewrite Ha. cbn [andb].
  destruct (gemini_service p) as [svc|] eqn:Hs.
  - rewrite composer_not_ready by (left; now apply Hf).
    cbn. now destruct (plain_response q rd (Some true)).
  - cbn. now destruct (plain_response q rd (Some true)).
Qed.

(** The route on a request that carries a question, once the retriever has
    answered. *)
Lemma query_served (p p' : Process) (qa : QASystem) (d : Request.t)
    (q : string) (rd : Retrieved.t) :
  init_qa_system p = (p', Ok qa) ->
  Request.question d = Some q ->
  answer_question qa q (get (Request.top_k d) 10%Z) = Ok rd ->
  query p (Some d) =
  match compose_response p' q rd (get (Request.use_gemini d) true) with
  | (l, Ok r) => (p', l, (Envelope r, 200%Z))
  | (l, Raise e) => (p', l, (ErrorWithDetails (str_of_exn e), 500%Z))
  end.
Proof.
  intros Hi Hq Hr. unfold query, query_body, missing_question, Request.truthy.
  rewrite Hi, Hq. cbn. rewrite Hr. cbn.
  destruct (compose_response p' q rd (get (Request.use_gemini d) true))
    as [l [r|e]]; cbn; rewrite ?app_nil_r; reflexivity.
Qed.

Lemma query_init_raises (p p' : Process) (e : exn)
    (data : option Request.t) :
  init_qa_system p = (p', Raise e) ->
  query p data = (p', [], (ErrorWithDetails (str_of_exn e), 500%Z)).
Proof.
  intros Hi. unfold query. now rewrite Hi.
Qed.

Lemma query_missing_question (p p' : Process) (qa : QASystem)
    (data : option Request.t) :
  init_qa_system p = (p', Ok qa) ->
  missing_question data = true ->
  query p data = (p', [], (Error "Missing question parameter", 400%Z)).
Proof.
  intros Hi Hm. unfold query, query_body. now rewrite Hi, Hm.
Qed.

Lemma query_retriever_raises (p p' : Process) (qa : QASystem)
    (d : Request.t) (q : string) (e : exn) :
  init_qa_system p = (p', Ok qa) ->
  Request.question d = Some q ->
  answer_question qa q (get (Request.top_k d) 10%Z) = Raise e ->
  query p (Some d) = (p', [], (ErrorWithDetails (str_of_exn e), 500%Z)).
Proof.
  intros Hi Hq Hr. unfold query, query_body, missing_question, Request.truthy.
  rewrite Hi, Hq. cbn. now rewrite Hr.
Qed.

Lemma missing_question_iff (data : option Request.t) :
  missing_question data = false <->
  exists d q, data = Some d /\ Request.question d = Some q.
Proof.
  unfold missing_question, Request.truthy. split.
  - destruct data as [d|]; [|discriminate].
    destruct (Request.question d) as [q|] eqn:Hq.
    + intros _. now exists d, q.
    + rewrite orb_true_r. discriminate.
  - intros (d & q & -> & ->). reflexivity.
Qed.

(** The four ways a request ends. *)
Lemma query_cases (p : Process) (data : option Request.t) :
  (exists p' e,
      init_qa_system p = (p', Raise e)
      /\ query p data = (p', [], (ErrorWithDetails (str_of_exn e), 500%Z)))
  \/ (exists p' qa,
         init_qa_system p = (p', Ok qa)
         /\ missing_question data = true
         /\ query p data
            = (p', [], (Error "Missing question parameter", 400%Z)))
  \/ (exists p' qa d q e,
         init_qa_system p = (p', Ok qa)
         /\ data = Some d /\ Request.question d = Some q
         /\ answer_question qa q (get (Request.top_k d) 10%Z) = Raise e
         /\ query p data
            = (p', [], (ErrorWithDetails (str_of_exn e), 500%Z)))
  \/ (exists p' qa d q rd,
         init_qa_system p = (p', Ok qa)
         /\ data = Some d /\ Request.question d = Some q
         /\ answer_question qa q (get (Request.top_k d) 10%Z) = Ok rd
         /\ query p data =
            match
              compose_response p' q rd (get (Request.use_gemini d) true)
            with
            | (l, Ok r) => (p', l, (Envelope r, 200%Z))
            | (l, Raise e) =>
                (p', l, (ErrorWithDetails (str_of_exn e), 500%Z))
            end).
Proof.
  destruct (init_qa_system p) as [p' [qa|e]] eqn:Hi.
  - right.
    destruct (missing_question data) eqn:Hm.
    + left. exists p', qa. repeat split; trivial.
      now apply (query_missing_question p p' qa).
    + right. apply missing_question_iff in Hm as (d & q & -> & Hq).
      destruct (answer_question qa q (get (Request.top_k d) 10%Z))
        as [rd|e] eqn:Hr.
      * right. exists p', qa, d, q, rd. repeat split; trivial.
        now apply (query_served p p' qa d q rd).
      * left. exists p', qa, d, q, e. repeat split; trivial.
        now apply (query_retriever_raises p p' qa d q e).
  - left. exists p', e. split; trivial. now apply query_init_raises.
Qed.

(** The composer, as the route calls it, raises only before any prompt is
    sent. *)
Lemma call_composer_raise_silent (p : Process) (q : string)
    (rd : Retrieved.t) (l : list Event) (e : exn) :
  call_generate_smart_response p q rd = (l, Raise e) -> l = [].
Proof.
  unfold call_generate_smart_response.
  destruct (gemini_service p) as [svc|].
  - destruct (composer_cases svc q rd) as [Hn | [Hf | [text Ht]]].
    + rewrite (composer_not_ready _ _ _ Hn). now intros [= <- _].
    + rewrite (composer_call_fails _ _ _ Hf). discriminate.
    + rewrite (composer_call_returns _ _ _ _ Ht). discriminate.
  - now intros [= <- _].
Qed.

(** The three ways [response] is bound. *)
Lemma compose_response_cases (p : Process) (q : string) (rd : Retrieved.t)
    (use_gemini : bool) :
  (GEMINI_AVAILABLE p && use_gemini = false
   /\ compose_response p q rd use_gemini = plain_response q rd None)
  \/ (exists l er,
         GEMINI_AVAILABLE p && use_gemini = true
         /\ call_generate_smart_response p q rd = (l, Ok er)
         /\ compose_response p q rd use_gemini
            = (l, Ok (enhanced_response q rd er)))
  \/ (exists e,
         GEMINI_AVAILABLE p && use_gemini = true
         /\ call_generate_smart_response p q rd = ([], Raise e)
         /\ compose_response p q rd use_gemini
            = plain_response q rd (Some true)).
Proof.
  unfold compose_response.
  destruct (GEMINI_AVAILABLE p && use_gemini); [right | now left].
  destruct (call_generate_smart_response p q rd) as [l [er|e]] eqn:Hc.
  - left. exists l, er. repeat split; trivial.
    cbn. now rewrite app_nil_r.
  - right. exists e.
    pose proof (call_composer_raise_silent _ _ _ _ _ Hc) as ->.
    repeat split; trivial.
    cbn. now destruct (plain_response q rd (Some true)).
Qed.

(** With a retrieved dictionary that has its answer and its confidence, no
    state of the enhancer turns a served request into an error status. *)
Lemma enhancer_never_fails_request (p p' : Process) (qa : QASystem)
    (d : Request.t) (q : string) (rd : Retrieved.t) :
  init_qa_system p = (p', Ok qa) ->
  Request.question d = Some q ->
  answer_question qa q (get (Request.top_k d) 10%Z) = Ok rd ->
  lacks_key rd = None ->
  exists l r, query p (Some d) = (p', l, (Envelope r, 200%Z)).
Proof.
  intros Hi Hq Hr Hk.
  rewrite (query_served p p' qa d q rd Hi Hq Hr).
  destruct (plain_response_cases q rd) as [(a & c & Ha & Hc) | [k Hk']];
    [|congruence].
  destruct (compose_response_cases p' q rd (get (Request.use_gemini d) true))
    as [[_ E] | [(l & er & _ & _ & E) | (e & _ & _ & E)]]; rewrite E.
  - rewrite (plain_response_present q rd None a c Ha Hc). eauto.
  - eauto.
  - rewrite (plain_response_present q rd (Some true) a c Ha Hc). eauto.
Qed.

(** The route when the enhancer call raises inside the composer: the
    envelope is built from the composer's fallback dictionary, whose
    ['fallback'] key is not copied. *)
Lemma query_enhancer_call_fails (p p' : Process) (qa : QASystem)
    (svc : GeminiService) (d : Request.t) (q : string) (rd : Retrieved.t) :
  init_qa_system p = (p', Ok qa) ->
  Request.question d = Some q ->
  answer_question qa q (get (Request.top_k d) 10%Z) = Ok rd ->
  GEMINI_AVAILABLE p = true ->
  gemini_service p = Some svc ->
  get (Request.use_gemini d) true = true ->
  enhancer_call_fails svc (build_prompt q rd) ->
  query p (Some d) =
  (p', [GenerateContent (build_prompt q rd)],
   (Envelope (enhanced_response q rd (fallback_result rd)), 200%Z))
  /\ Response.fallback (enhanced_response q rd (fallback_result rd)) = None
  /\ Response.ai_enhanced (enhanced_response q rd (fallback_result rd))
     = false.
Proof.
  intros Hi Hq Hr Hav Hs Hu Hf.
  rewrite (query_served p p' qa d q rd Hi Hq Hr), Hu.
  destruct (init_qa_system_keeps p p' _ Hi) as [Hav' Hs'].
  unfold compose_response, call_generate_smart_response.
  rewrite Hav', Hav, Hs', Hs, (composer_call_fails svc q rd Hf).
  now repeat split.
Qed.

(** An error status is a missing question (400), or a failure to construct
    the retriever, a failure of the retriever, or a retrieved dictionary
    without its answer or confidence (500). *)
Lemma query_error_status (p p' : Process) (data : option Request.t)
    (l : list Event) (b : Body) (s : Z) :
  query p data = (p', l, (b, s)) ->
  s <> 200%Z ->
  (s = 400%Z /\ missing_question data = true
   /\ b = Error "Missing question parameter")
  \/ (s = 500%Z
      /\ ((exists e, init_qa_system p = (p', Raise e))
          \/ (exists qa d q e,
                 serves p qa /\ data = Some d /\ Request.question d = Some q
                 /\ answer_question qa q (get (Request.top_k d) 10%Z)
                    = Raise e)
          \/ (exists qa d q rd k,
                 serves p qa /\ data = Some d /\ Request.question d = Some q
                 /\ answer_question qa q (get (Request.top_k d) 10%Z) = Ok rd
                 /\ lacks_key rd = Some k))).
Proof.
  intros Hrun Hs.
  destruct (query_cases p data)
    as [(p1 & e & Hi & E) | [(p1 & qa & Hi & Hm & E)
        | [(p1 & qa & d & q & e & Hi & -> & Hq & Hr & E)
          | (p1 & qa & d & q & rd & Hi & -> & Hq & Hr & E)]]];
    rewrite E in Hrun.
  - injection Hrun as <- <- <- <-. right. split; trivial. left. now exists e.
  - injection Hrun as <- <- <- <-. left. now repeat split.
  - injection Hrun as <- <- <- <-. right. split; trivial.
    right; left. exists qa, d, q, e. repeat split; trivial. now exists p1.
  - destruct (plain_response_cases q rd) as [(a & c & Ha & Hc) | [k Hk]].
    + destruct (enhancer_never_fails_request p p1 qa d q rd Hi Hq Hr)
        as (l' & r & E').
      { unfold lacks_key. now rewrite Ha, Hc. }
      rewrite E' in E. rewrite <- E in Hrun.
      injection Hrun as _ _ _ <-. contradiction.
    + destruct (compose_response p1 q rd (get (Request.use_gemini d) true))
        as [l' [r|e]].
      * injection Hrun as _ _ _ <-. contradiction.
      * injection Hrun as <- <- <- <-. right. split; trivial.
        right; right. exists qa, d, q, rd, k.
        repeat split; trivial. now exists p1.
Qed.

(* ===================================================================== *)
(** ** Properties of the route *)
(* ===================================================================== *)


Lemma process_not_ready_init_failed (rd : Retrieved.t) :
  enhancer_init_failed (process_not_ready rd).
Proof.
  intros svc [= <-]. reflexivity.
Qed.

(** C4.  With a retrieved result that has sources, a request that turns the
    enhancer off ([use_gemini] false) is answered with the retrieved answer,
    confidence and sources as they are, with [ai_enhanced = false] and
    neither optional flag; no prompt is sent. *)
Theorem direct_path_mirrors_retrieval (p p' : Process) (qa : QASystem)
    (d : Request.t) (q a : string) (c : Q) (l : list Source)
    (rd : Retrieved.t) :
  init_qa_system p = (p', Ok qa) ->
  Request.question d = Some q ->
  Request.use_gemini d = Some false ->
  answer_question qa q (get (Request.top_k d) 10%Z) = Ok rd ->
  Retrieved.answer rd = Some a ->
  Retrieved.confidence rd = Some c ->
  Retrieved.sources rd = Some l ->
  l <> [] ->
  query p (Some d) =
  (p', [],
   (Envelope
      {| Response.question := q;
         Response.answer := a;
         Response.confidence := c;
         Response.sources := l;
         Response.num_results := get (Retrieved.search_results_count rd) 0%Z;
         Response.ai_enhanced := false;
         Response.general_guidance := None;
         Response.fallback := None |},
    200%Z)).
Proof.
  intros Hi Hq Hu Hr Ha Hc Hl _.
  rewrite (query_served p p' qa d q rd Hi Hq Hr), Hu.
  unfold compose_response. cbn [get]. rewrite andb_false_r.
  rewrite (plain_response_present q rd None a c Ha Hc), Hl. reflexivity.
Qed.

Lemma direct_path_mirrors_retrieval_witness :
  query (process_failing retrieval_two_sources)
    (without_enhancer (ask sandy_question))
  = (set_qa_system (process_failing retrieval_two_sources)
       (retriever_of retrieval_two_sources),
     [],
     (Envelope
        {| Response.question := sandy_question;
           Response.answer := "Groundnut and watermelon suit sandy soil.";
           Response.confidence := (82 # 100)%Q;
           Response.sources := [source_1; source_2];
           Response.num_results := 2%Z;
           Response.ai_enhanced := false;
           Response.general_guidance := None;
           Response.fallback := None |},
      200%Z)).
Proof.
  apply (direct_path_mirrors_retrieval
           (process_failing retrieval_two_sources)
           (set_qa_system (process_failing retrieval_two_sources)
              (retriever_of retrieval_two_sources))
           (retriever_of retrieval_two_sources)
           {| Request.question := Some sandy_question;
              Request.top_k := None;
              Request.use_gemini := Some false |}
           sandy_question "Groundnut and watermelon suit sandy soil."
           (82 # 100)%Q [source_1; source_2] retrieval_two_sources);
    try reflexivity.
  discriminate.
Defined.




(** C3, as the code has it.  With no retrieved source: when the enhancer is
    initialised and its call raises, [generate_smart_response] returns a
    non-empty answer with [fallback = true]; when the enhancer is not
    initialised, the route answers 200 with [fallback = true],
    [ai_enhanced = false] and the retrieved answer as it is. *)
Theorem unreachable_enhancer_without_sources (q : string)
    (rd : Retrieved.t) :
  get (Retrieved.sources rd) [] = [] ->
  (forall svc,
      enhancer_call_fails svc (build_prompt q rd) ->
      exists r,
        generate_smart_response svc q rd
        = ([GenerateContent (build_prompt q rd)], Ok r)
        /\ Enhanced.answer r <> ""
        /\ Enhanced.fallback r = Some true)
  /\ (forall p p' qa d a c,
         GEMINI_AVAILABLE p = true ->
         enhancer_init_failed p ->
         init_qa_system p = (p', Ok qa) ->
         Request.question d = Some q ->
         get (Request.use_gemini d) true = true ->
         answer_question qa q (get (Request.top_k d) 10%Z) = Ok rd ->
         Retrieved.answer rd = Some a ->
         Retrieved.confidence rd = Some c ->
         exists r,
           query p (Some d) = (p', [], (Envelope r, 200%Z))
           /\ Response.fallback r = Some true
           /\ Response.ai_enhanced r = false
           /\ Response.answer r = a).
Proof.
  intros _. split.
  - intros svc Hf. exists (fallback_result rd).
    split; [now apply composer_call_fails|].
    split; [apply fallback_result_answer_not_empty | reflexivity].
  - intros p p' qa d a c Hav Hf Hi Hq Hu Hr Ha Hc.
    rewrite (query_served p p' qa d q rd Hi Hq Hr), Hu.
    destruct (init_qa_system_keeps p p' _ Hi) as [Hav' Hs'].
    rewrite compose_response_not_ready.
    + rewrite (plain_response_present q rd _ a c Ha Hc).
      eexists. split; [reflexivity|]. now repeat split.
    + congruence.
    + intros svc Hs. apply Hf. congruence.
Qed.

Lemma unreachable_enhancer_without_sources_witness :
  get (Retrieved.sources retrieval_blank_answer) [] = []
  /\ (exists r,
         generate_smart_response service_failing sandy_question
           retrieval_blank_answer
         = ([GenerateContent
               (build_prompt sandy_question retrieval_blank_answer)], Ok r)
         /\ Enhanced.answer r <> ""
         /\ Enhanced.fallback r = Some true)
  /\ (exists r,
         query (process_not_ready retrieval_blank_answer) (ask sandy_question)
         = (set_qa_system (process_not_ready retrieval_blank_answer)
              (retriever_of retrieval_blank_answer),
            [], (Envelope r, 200%Z))
         /\ Response.fallback r = Some true
         /\ Response.ai_enhanced r = false
         /\ Response.answer r = " ").
Proof.
  split; [reflexivity|].
  destruct (unreachable_enhancer_without_sources sandy_question
              retrieval_blank_answer eq_refl) as [H1 H2].
  split.
  - apply (H1 service_failing).
    split; [reflexivity|].
    exists failing_model, (Exception "429 quota exceeded"). now split.
  - apply (H2 (process_not_ready retrieval_blank_answer)
              (set_qa_system (process_not_ready retrieval_blank_answer)
                 (retriever_of retrieval_blank_answer))
              (retriever_of retrieval_blank_answer)
              {| Request.question := Some sandy_question;
                 Request.top_k := None;
                 Request.use_gemini := None |}
              " " (1 # 10)%Q); try reflexivity.
    intros svc [= <-]. reflexivity.
Defined.

(** C3, as stated, fails: with no source, an empty retrieved answer and an
    enhancer that was never initialised, the composer raises and the route's
    envelope, flagged [fallback], carries the empty answer. *)
Lemma not_ready_answer_may_be_empty :
  get (Retrieved.sources retrieval_no_sources) [] = []
  /\ generate_smart_response service_not_ready sandy_question
       retrieval_no_sources
     = ([], Raise (Exception "Gemini not available"))
  /\ exists p' r,
       query (process_not_ready retrieval_no_sources) (ask sandy_question)
       = (p', [], (Envelope r, 200%Z))
       /\ Response.fallback r = Some true
       /\ Response.answer r = "".
Proof.
  split; [reflexivity|]. split; [reflexivity|].
  eexists; eexists. split; [reflexivity|]. now split.
Qed.

Lemma unit_interval_half : unit_interval (1 # 2)%Q.
Proof. split; discriminate. Qed.

Lemma unit_interval_zero : unit_interval 0%Q.
Proof. split; discriminate. Qed.

Lemma get_confidence_in_range (rd : Retrieved.t) :
  confidence_in_range rd ->
  unit_interval (get (Retrieved.confidence rd) 0%Q).
Proof.
  unfold confidence_in_range.
  destruct (Retrieved.confidence rd) as [c|]; intros H; cbn.
  - now apply H.
  - apply unit_interval_zero.
Qed.

Lemma composer_confidence_in_range (svc : GeminiService) (q : string)
    (rd : Retrieved.t) (l : list Event) (r : Enhanced.t) :
  confidence_in_range rd ->
  generate_smart_response svc q rd = (l, Ok r) ->
  unit_interval (Enhanced.confidence r).
Proof.
  intros Hc Hrun.
  destruct (composer_cases svc q rd) as [Hn | [Hf | [text Ht]]].
  - rewrite (composer_not_ready _ _ _ Hn) in Hrun. discriminate.
  - rewrite (composer_call_fails _ _ _ Hf) in Hrun.
    injection Hrun as _ <-. now apply get_confidence_in_range.
  - rewrite (composer_call_returns _ _ _ _ Ht) in Hrun.
    injection Hrun as _ <-. cbn [Enhanced.confidence].
    destruct (has_data rd).
    + now apply get_confidence_in_range.
    + apply unit_interval_half.
Qed.

Lemma plain_response_confidence_in_range (q : string) (rd : Retrieved.t)
    (fb : option bool) (l : list Event) (r : Response.t) :
  confidence_in_range rd ->
  plain_response q rd fb = (l, Ok r) ->
  unit_interval (Response.confidence r).
Proof.
  intros Hc Hrun.
  destruct (plain_response_cases q rd) as [(a & c & Ha & Hc') | [k Hk]].
  - rewrite (plain_response_present q rd fb a c Ha Hc') in Hrun.
    injection Hrun as _ <-. now apply Hc.
  - rewrite (plain_response_absent q rd fb k Hk) in Hrun. discriminate.
Qed.

(** C8.  If every retrieved confidence lies in [0,1], so does the confidence
    of every envelope: of each one [generate_smart_response] returns (on
    success: the retrieved confidence or 0.5; on fallback: the retrieved
    confidence, 0 without the key), and of each one the route returns (direct
    path, enhanced path, and the route's own fallback). *)
Theorem confidence_stays_in_unit_interval :
  (forall svc q rd l r,
      confidence_in_range rd ->
      generate_smart_response svc q rd = (l, Ok r) ->
      unit_interval (Enhanced.confidence r))
  /\ (forall p data p' l r s,
         (forall qa q k rd,
             serves p qa -> answer_question qa q k = Ok rd ->
             confidence_in_range rd) ->
         query p data = (p', l, (Envelope r, s)) ->
         unit_interval (Response.confidence r)).
Proof.
  split; [exact composer_confidence_in_range|].
  intros p data p' l r s Hqa Hrun.
  destruct (query_cases p data)
    as [(p1 & e & Hi & E) | [(p1 & qa & Hi & Hm & E)
        | [(p1 & qa & d & q & e & Hi & -> & Hq & Hr & E)
          | (p1 & qa & d & q & rd & Hi & -> & Hq & Hr & E)]]];
    rewrite E in Hrun; try discriminate.
  assert (Hrd : confidence_in_range rd).
  { apply (Hqa qa q (get (Request.top_k d) 10%Z)); [now exists p1 | exact Hr]. }
  destruct (compose_response_cases p1 q rd (get (Request.use_gemini d) true))
    as [[_ C] | [(l' & er & _ & Hcall & C) | (e & _ & _ & C)]];
    rewrite C in Hrun.
  - destruct (plain_response q rd None) as [l' [r'|e]] eqn:Hp;
      [|discriminate].
    injection Hrun as _ _ <- _.
    now apply (plain_response_confidence_in_range q rd None l').
  - injection Hrun as _ _ <- _. cbn [enhanced_response Response.confidence].
    unfold call_generate_smart_response in Hcall.
    destruct (gemini_service p1) as [svc|]; [|discriminate].
    now apply (composer_confidence_in_range svc q rd l').
  - destruct (plain_response q rd (Some true)) as [l' [r'|e']] eqn:Hp;
      [|discriminate].
    injection Hrun as _ _ <- _.
    now apply (plain_response_confidence_in_range q rd (Some true) l').
Qed.

Lemma retrieval_two_sources_in_range :
  confidence_in_range retrieval_two_sources.
Proof.
  intros c [= <-]. split; discriminate.
Qed.

Lemma confidence_stays_in_unit_interval_witness :
  confidence_in_range retrieval_two_sources
  /\ unit_interval
       (Enhanced.confidence (fallback_result retrieval_two_sources))
  /\ unit_interval (82 # 100)%Q.
Proof.
  split; [exact retrieval_two_sources_in_range|].
  destruct confidence_stays_in_unit_interval as [H1 H2].
  split.
  - apply (H1 service_failing sandy_question retrieval_two_sources
              [GenerateContent
                 (build_prompt sandy_question retrieval_two_sources)]
              (fallback_result retrieval_two_sources)).
    + intros c [= <-]. split; discriminate.
    + reflexivity.
  - apply (H2 (process_failing retrieval_two_sources)
              (without_enhancer (ask sandy_question))
              (set_qa_system (process_failing retrieval_two_sources)
                 (retriever_of retrieval_two_sources))
              []
              {| Response.question := sandy_question;
                 Response.answer := "Groundnut and watermelon suit sandy soil.";
                 Response.confidence := (82 # 100)%Q;
                 Response.sources := [source_1; source_2];
                 Response.num_results := 2%Z;
                 Response.ai_enhanced := false;
                 Response.general_guidance := None;
                 Response.fallback := None |}
              200%Z).
    + intros qa q k rd [p' Hs] Hr.
      injection Hs as _ <-. injection Hr as <-.
      intros c [= <-]. split; discriminate.
    + reflexivity.
Defined.

(** C9, at a request whose enhancer call raises.  The route answers 200
    with [ai_enhanced = false], and the envelope has no [fallback] key,
    although the dictionary [generate_smart_response] returned carried
    [fallback = true]: the route copies ['ai_enhanced'] and
    ['general_guidance'] from it and leaves ['fallback'] behind. *)
Theorem enhancer_failure_drops_fallback_flag :
  enhancer_call_fails service_failing
    (build_prompt sandy_question retrieval_two_sources)
  /\ (exists er,
         generate_smart_response service_failing sandy_question
           retrieval_two_sources
         = ([GenerateContent
               (build_prompt sandy_question retrieval_two_sources)], Ok er)
         /\ Enhanced.fallback er = Some true)
  /\ query (process_failing retrieval_two_sources) (ask sandy_question)
     = (set_qa_system (process_failing retrieval_two_sources)
          (retriever_of retrieval_two_sources),
        [GenerateContent (build_prompt sandy_question retrieval_two_sources)],
        (Envelope
           {| Response.question := sandy_question;
              Response.answer := "Groundnut and watermelon suit sandy soil.";
              Response.confidence := (82 # 100)%Q;
              Response.sources := [source_1; source_2];
              Response.num_results := 2%Z;
              Response.ai_enhanced := false;
              Response.general_guidance := Some false;
              Response.fallback := None |},
         200%Z)).
Proof.
  split; [apply service_failing_fails|].
  split; [|reflexivity].
  exists (fallback_result retrieval_two_sources). now split.
Qed.

(* ===================================================================== *)
(** ** More on gemini_service.py *)
(* ===================================================================== *)

Lemma check_not_ready (svc : GeminiService) :
  GEMINI_READY svc = false \/ model svc = None ->
  check_gemini_connection svc = ([], Ok (false, "Gemini not initialized")).
Proof.
  unfold check_gemini_connection.
  intros [H | H]; rewrite H; [|rewrite orb_true_r]; reflexivity.
Qed.

Lemma check_ready (svc : GeminiService) (m : Model) :
  GEMINI_READY svc = true ->
  model svc = Some m ->
  check_gemini_connection svc =
  ([GenerateContent probe_prompt],
   match m probe_prompt with
   | Ok text => Ok (true, text)
   | Raise e => Ok (false, str_of_exn e)
   end).
Proof.
  intros Hr Hm. unfold check_gemini_connection, generate_content.
  rewrite Hr, Hm. cbn. destruct (m probe_prompt); reflexivity.
Qed.

Lemma service_cases (svc : GeminiService) :
  (GEMINI_READY svc = false \/ model svc = None)
  \/ exists m, GEMINI_READY svc = true /\ model svc = Some m.
Proof.
  destruct (GEMINI_READY svc); [|now left; left].
  destruct (model svc) as [m|]; [|now left; right].
  right. now exists m.
Qed.

(** X1.  [check_gemini_connection] never raises, whatever the model does:
    it returns a pair, after sending either nothing or the one fixed probe
    prompt. *)
Theorem check_gemini_connection_never_raises (svc : GeminiService) :
  exists ok msg,
    snd (check_gemini_connection svc) = Ok (ok, msg)
    /\ (fst (check_gemini_connection svc) = []
        \/ fst (check_gemini_connection svc)
           = [GenerateContent probe_prompt]).
Proof.
  destruct (service_cases svc) as [Hn | (m & Hr & Hm)].
  - rewrite (check_not_ready svc Hn).
    exists false, "Gemini not initialized". split; [reflexivity | now left].
  - rewrite (check_ready svc m Hr Hm). cbn [fst snd].
    destruct (m probe_prompt) as [text|e];
      [exists true, text | exists false, (str_of_exn e)];
      (split; [reflexivity | now right]).
Qed.

(** X2.  [check_gemini_connection] reports [True] exactly when the enhancer
    was initialised and the model answers the probe prompt; the text it
    returns is then the completion, untrimmed. *)
Theorem check_gemini_connection_true_iff (svc : GeminiService)
    (text : string) :
  snd (check_gemini_connection svc) = Ok (true, text)
  <-> enhancer_call_returns svc probe_prompt text.
Proof.
  unfold enhancer_call_returns. split.
  - destruct (service_cases svc) as [Hn | (m & Hr & Hm)].
    + rewrite (check_not_ready svc Hn). discriminate.
    + rewrite (check_ready svc m Hr Hm). cbn.
      destruct (m probe_prompt) as [t|e] eqn:E; [|discriminate].
      intros [= <-]. split; trivial. now exists m.
  - intros [Hr (m & Hm & E)].
    rewrite (check_ready svc m Hr Hm). cbn. now rewrite E.
Qed.

Lemma check_gemini_connection_true_iff_witness :
  snd (check_gemini_connection service_healthy)
  = Ok (true, " Groundnut does well on sandy loam." ++ nl).
Proof.
  apply (proj2 (check_gemini_connection_true_iff service_healthy
                  (" Groundnut does well on sandy loam." ++ nl))).
  split; [reflexivity|]. exists healthy_model. now split.
Defined.

Lemma bind_pure {A B : Type} (a : A) (k : A -> Comp B) :
  bind ([], Ok a) k = k a.
Proof.
  unfold bind. now destruct (k a).
Qed.

Lemma add_raw_source_missing (context : string) (i : nat)
    (source : RawSource) (k : string) :
  first_missing_key source = Some k ->
  add_raw_source context (i, source) = ([], Raise (KeyError k)).
Proof.
  unfold first_missing_key, add_raw_source.
  destruct (raw_dataset source), (raw_chunk source), (raw_relevance source);
    intros [= <-]; reflexivity.
Qed.

Lemma add_raw_source_complete (context : string) (i : nat)
    (source : RawSource) :
  first_missing_key source = None ->
  exists context', add_raw_source context (i, source) = ([], Ok context').
Proof.
  unfold first_missing_key, add_raw_source.
  destruct (raw_dataset source), (raw_chunk source), (raw_relevance source);
    try discriminate.
  intros _. eexists. reflexivity.
Qed.

Lemma enumerate_cons {A : Type} (a : A) (l : list A) (start : nat) :
  enumerate (a :: l) start = (start, a) :: enumerate l (S start).
Proof. reflexivity. Qed.

Lemma add_raw_sources_result (sources : list RawSource) (start : nat)
    (context : string) :
  match find_missing_key sources with
  | Some k =>
      add_raw_sources (enumerate sources start) context
      = ([], Raise (KeyError k))
  | None =>
      exists context',
        add_raw_sources (enumerate sources start) context
        = ([], Ok context')
  end.
Proof.
  revert start context.
  induction sources as [|source rest IH]; intros start context.
  - cbn. eexists. reflexivity.
  - rewrite enumerate_cons. cbn [find_missing_key add_raw_sources].
    destruct (first_missing_key source) as [k|] eqn:Hk.
    + now rewrite (add_raw_source_missing context start source k Hk).
    + destruct (add_raw_source_complete context start source Hk)
        as [context' ->].
      specialize (IH (S start) context').
      destruct (find_missing_key rest) as [k|].
      * cbn. now rewrite IH.
      * destruct IH as [c IH]. exists c. cbn. now rewrite IH.
Qed.

(** The prompt is built unless one of the first three sources lacks a key. *)
Lemma build_context_raw_result (q : string) (raw : RawRetrieved.t) :
  match prompt_key_error raw with
  | Some k => build_context_raw q raw = ([], Raise (KeyError k))
  | None => exists context, build_context_raw q raw = ([], Ok context)
  end.
Proof.
  unfold prompt_key_error, build_context_raw.
  destruct (get (RawRetrieved.sources raw) []) as [|source rest] eqn:Hs.
  - cbn. eexists. reflexivity.
  - cbn [list_truthy length andb Nat.ltb Nat.leb].
    apply add_raw_sources_result.
Qed.

Lemma composer_raw_not_ready (svc : GeminiService) (q : string)
    (raw : RawRetrieved.t) :
  GEMINI_READY svc = false \/ model svc = None ->
  generate_smart_response_raw svc q raw
  = ([], Raise (Exception "Gemini not available")).
Proof.
  unfold generate_smart_response_raw.
  intros [H | H]; rewrite H; [|rewrite orb_true_r]; reflexivity.
Qed.

Lemma composer_raw_key_error (svc : GeminiService) (m : Model) (q k : string)
    (raw : RawRetrieved.t) :
  GEMINI_READY svc = true ->
  model svc = Some m ->
  prompt_key_error raw = Some k ->
  generate_smart_response_raw svc q raw = ([], Raise (KeyError k)).
Proof.
  intros Hr Hm Hk. unfold generate_smart_response_raw.
  rewrite Hr, Hm. cbn [negb is_None orb].
  pose proof (build_context_raw_result q raw) as Hb.
  rewrite Hk in Hb. now rewrite Hb.
Qed.

Lemma composer_raw_complete (svc : GeminiService) (m : Model) (q : string)
    (raw : RawRetrieved.t) :
  GEMINI_READY svc = true ->
  model svc = Some m ->
  prompt_key_error raw = None ->
  exists context r,
    build_context_raw q raw = ([], Ok context)
    /\ generate_smart_response_raw svc q raw
       = ([GenerateContent (context ++ prompt_tail)], Ok r)
    /\ (RawEnhanced.fallback r = Some true
        <-> exists e, m (context ++ prompt_tail) = Raise e).
Proof.
  intros Hr Hm Hk.
  pose proof (build_context_raw_result q raw) as Hb.
  rewrite Hk in Hb. destruct Hb as [context Hb].
  exists context.
  unfold generate_smart_response_raw, generate_content.
  rewrite Hr, Hm, Hb. cbn -[prompt_tail append].
  destruct (m (context ++ prompt_tail)) as [text|e] eqn:E;
    cbn -[prompt_tail append].
  - eexists. split; [reflexivity|]. split; [reflexivity|].
    cbn [RawEnhanced.fallback].
    split; [discriminate | intros [e [=]]].
  - eexists. split; [reflexivity|]. split; [reflexivity|].
    cbn [RawEnhanced.fallback raw_fallback_result].
    split; [intros _; now exists e | reflexivity].
Qed.

Lemma add_raw_sources_of_sources (l : list Source) (start : nat)
    (context : string) :
  add_raw_sources (enumerate (map raw_of_source l) start) context
  = ([], Ok (fold_left add_source (enumerate l start) context)).
Proof.
  revert start context.
  induction l as [|s l IH]; intros start context; [reflexivity|].
  cbn [map]. rewrite !enumerate_cons.
  cbn [add_raw_sources fold_left].
  assert (add_raw_source context (start, raw_of_source s)
          = ([], Ok (add_source context (start, s)))) as ->.
  { unfold add_raw_source, add_source, raw_of_source. cbn.
    now destruct (details s). }
  cbn. now rewrite IH.
Qed.

(** On sources that have all their keys, the composer above is
    [generate_smart_response]. *)
Lemma composer_raw_refines (svc : GeminiService) (q : string)
    (rd : Retrieved.t) :
  generate_smart_response_raw svc q (raw_of_retrieved rd)
  = map_result raw_of_enhanced (generate_smart_response svc q rd).
Proof.
  assert (Hc : build_context_raw q (raw_of_retrieved rd)
               = ([], Ok (build_context q rd))).
  { unfold build_context_raw, build_context, sources_truthy, len_sources.
    destruct rd as [a c [l|] n]; cbn [raw_of_retrieved
      RawRetrieved.sources Retrieved.sources option_map get];
      [|reflexivity].
    rewrite length_map.
    replace (list_truthy (map raw_of_source l)) with (list_truthy l)
      by now destruct l.
    destruct (list_truthy l && (0 <? length l)%nat); [|reflexivity].
    rewrite firstn_map. apply add_raw_sources_of_sources. }
  assert (Hd : raw_has_data (raw_of_retrieved rd) = has_data rd).
  { rewrite has_data_sources. unfold raw_has_data, RawRetrieved.truthy.
    destruct rd as [a c [[|s l]|] n]; cbn; try reflexivity;
      try (now destruct a, c, n). }
  unfold generate_smart_response_raw, generate_smart_response,
    generate_content.
  destruct (negb (GEMINI_READY svc) || is_None (model svc)) eqn:Hg;
    [reflexivity|].
  rewrite Hc, Hd, bind_pure. unfold build_prompt.
  generalize (build_context q rd ++ prompt_tail). intros prompt.
  destruct (model svc) as [m|]; cbn.
  - destruct (m prompt) as [text|e]; cbn.
    + unfold raw_of_enhanced. cbn.
      now destruct (Retrieved.sources rd).
    + unfold raw_of_enhanced, raw_fallback_result, fallback_result. cbn.
      now destruct (Retrieved.sources rd).
  - unfold raw_of_enhanced, raw_fallback_result, fallback_result. cbn.
    now destruct (Retrieved.sources rd).
Qed.

(** X3.  [generate_smart_response] raises in two situations only, and
    [check_gemini_connection] tells the first: the enhancer is unusable (the
    check then answers "Gemini not initialized" and sends nothing), or one of
    the first three sources lacks ['dataset'], ['chunk'] or ['relevance'],
    which the prompt loop reads outside the [try]. *)
Theorem composer_raises_iff_check_uninitialized (svc : GeminiService)
    (q : string) (raw : RawRetrieved.t) :
  (exists l e, generate_smart_response_raw svc q raw = (l, Raise e))
  <-> check_gemini_connection svc
      = ([], Ok (false, "Gemini not initialized"))
      \/ exists k, prompt_key_error raw = Some k.
Proof.
  split.
  - intros (l & e & Hrun).
    destruct (service_cases svc) as [Hn | (m & Hr & Hm)].
    + left. now apply check_not_ready.
    + right. destruct (prompt_key_error raw) as [k|] eqn:Hk;
        [now exists k|].
      destruct (composer_raw_complete svc m q raw Hr Hm Hk)
        as (c & r & _ & E & _).
      rewrite E in Hrun. discriminate.
  - intros H.
    destruct (service_cases svc) as [Hn | (m & Hr & Hm)].
    + rewrite (composer_raw_not_ready svc q raw Hn). eauto.
    + destruct H as [Hc | [k Hk]].
      * rewrite (check_ready svc m Hr Hm) in Hc. discriminate.
      * rewrite (composer_raw_key_error svc m q k raw Hr Hm Hk). eauto.
Qed.

Lemma composer_raises_iff_check_uninitialized_witness :
  (exists l e,
      generate_smart_response_raw service_healthy sandy_question
        retrieval_broken_source
      = (l, Raise e))
  /\ check_gemini_connection service_not_ready
     = ([], Ok (false, "Gemini not initialized")).
Proof.
  split.
  - apply (proj2 (composer_raises_iff_check_uninitialized service_healthy
                    sandy_question retrieval_broken_source)).
    right. exists "chunk". reflexivity.
  - destruct (proj1 (composer_raises_iff_check_uninitialized
                       service_not_ready sandy_question
                       (raw_of_retrieved retrieval_two_sources)))
      as [H | [k H]].
    + exists [], (Exception "Gemini not available"). reflexivity.
    + exact H.
    + discriminate H.
Defined.

(** X4.  Once the enhancer is initialised, whether
    [generate_smart_response] returns is decided by the sources alone,
    whatever the model does and whatever the retrieved dictionary lacks
    besides: if the first three sources have ['dataset'], ['chunk'] and
    ['relevance'], it sends exactly one prompt and returns an envelope
    (flagged [fallback] exactly when the call raised); if one of them lacks a
    key, it raises the [KeyError] of the first missing key and sends
    nothing. *)
Theorem composer_total_when_ready (svc : GeminiService) (m : Model)
    (q : string) (raw : RawRetrieved.t) :
  GEMINI_READY svc = true ->
  model svc = Some m ->
  (prompt_key_error raw = None ->
   exists prompt r,
     generate_smart_response_raw svc q raw
     = ([GenerateContent prompt], Ok r)
     /\ (RawEnhanced.fallback r = Some true
         <-> exists e, m prompt = Raise e))
  /\ (forall k,
         prompt_key_error raw = Some k ->
         generate_smart_response_raw svc q raw = ([], Raise (KeyError k))).
Proof.
  intros Hr Hm. split.
  - intros Hk.
    destruct (composer_raw_complete svc m q raw Hr Hm Hk)
      as (c & r & _ & E & Hf).
    now exists (c ++ prompt_tail), r.
  - intros k Hk. now apply (composer_raw_key_error svc m).
Qed.

Lemma composer_total_when_ready_witness :
  (exists prompt r,
      generate_smart_response_raw service_failing sandy_question
        (RawRetrieved.mk None None None None)
      = ([GenerateContent prompt], Ok r)
      /\ (RawEnhanced.fallback r = Some true
          <-> exists e, failing_model prompt = Raise e))
  /\ generate_smart_response_raw service_healthy sandy_question
       retrieval_broken_source
     = ([], Raise (KeyError "chunk")).
Proof.
  split.
  - apply (proj1 (composer_total_when_ready service_failing failing_model
                    sandy_question (RawRetrieved.mk None None None None)
                    eq_refl eq_refl)).
    reflexivity.
  - apply (proj2 (composer_total_when_ready service_healthy healthy_model
                    sandy_question retrieval_broken_source
                    eq_refl eq_refl)).
    reflexivity.
Defined.

Lemma strip_empty_of_blank (s : string) : blank s = true -> strip s = "".
Proof.
  intros Hb. apply is_empty_true. now rewrite strip_blank.
Qed.

(** X5.  The success path does not guard against an empty completion: when
    the model returns only white space, the envelope has the empty answer,
    [ai_enhanced = true] and no [fallback] key; the canned answer is not
    used. *)
Theorem blank_completion_gives_empty_answer (svc : GeminiService)
    (q text : string) (rd : Retrieved.t) :
  enhancer_call_returns svc (build_prompt q rd) text ->
  blank text = true ->
  exists r,
    generate_smart_response svc q rd
    = ([GenerateContent (build_prompt q rd)], Ok r)
    /\ Enhanced.answer r = ""
    /\ Enhanced.ai_enhanced r = true
    /\ Enhanced.fallback r = None.
Proof.
  intros Ht Hb.
  rewrite (composer_call_returns _ _ _ _ Ht).
  eexists. split; [reflexivity|].
  cbn [Enhanced.answer Enhanced.ai_enhanced Enhanced.fallback].
  rewrite (strip_empty_of_blank text Hb). now repeat split.
Qed.

Lemma blank_completion_gives_empty_answer_witness :
  exists r,
    generate_smart_response
      (gemini_service_module (Ok (fun _ => Ok (" " ++ nl))))
      sandy_question retrieval_two_sources
    = ([GenerateContent (build_prompt sandy_question retrieval_two_sources)],
       Ok r)
    /\ Enhanced.answer r = ""
    /\ Enhanced.ai_enhanced r = true
    /\ Enhanced.fallback r = None.
Proof.
  apply (blank_completion_gives_empty_answer
           (gemini_service_module (Ok (fun _ => Ok (" " ++ nl))))
           sandy_question (" " ++ nl) retrieval_two_sources).
  - split; [reflexivity|]. eexists. split; reflexivity.
  - reflexivity.
Defined.

Lemma lstrip_first (s : string) (c : ascii) :
  first_char (lstrip s) = Some c -> isspace c = false.
Proof.
  induction s as [|a s IH]; cbn [lstrip]; [discriminate|].
  destruct (isspace a) eqn:Ha; [exact IH|].
  cbn. now intros [= <-].
Qed.

Lemma rstrip_first (s : string) (c : ascii) :
  first_char (rstrip s) = Some c -> first_char s = Some c.
Proof.
  destruct s as [|a s]; cbn [rstrip]; [discriminate|].
  destruct (isspace a && is_empty (rstrip s)); [discriminate | trivial].
Qed.

Lemma rstrip_last (s : string) (c : ascii) :
  last_char (rstrip s) = Some c -> isspace c = false.
Proof.
  induction s as [|a s IH]; cbn [rstrip]; [discriminate|].
  destruct (isspace a) eqn:Ha; cbn [andb].
  - destruct (rstrip s) as [|b r] eqn:Hr; cbn [is_empty]; [discriminate|].
    cbn [last_char]. exact IH.
  - destruct (rstrip s) as [|b r] eqn:Hr; cbn [last_char].
    + now intros [= <-].
    + exact IH.
Qed.

Lemma strip_trimmed (s : string) : trimmed (strip s).
Proof.
  unfold strip. split; intros c Hc.
  - apply (lstrip_first s). now apply rstrip_first.
  - now apply (rstrip_last (lstrip s)).
Qed.

(** X6.  On the success path the answer is the completion without white
    space at either end: its first and its last character, if any, are not
    white space. *)
Theorem enhanced_answer_is_trimmed (svc : GeminiService) (q text : string)
    (rd : Retrieved.t) :
  enhancer_call_returns svc (build_prompt q rd) text ->
  exists r,
    generate_smart_response svc q rd
    = ([GenerateContent (build_prompt q rd)], Ok r)
    /\ Enhanced.answer r = strip text
    /\ trimmed (Enhanced.answer r).
Proof.
  intros Ht. rewrite (composer_call_returns _ _ _ _ Ht).
  eexists. split; [reflexivity|]. split; [reflexivity|].
  apply strip_trimmed.
Qed.

Lemma enhanced_answer_is_trimmed_witness :
  exists r,
    generate_smart_response service_healthy sandy_question
      retrieval_two_sources
    = ([GenerateContent (build_prompt sandy_question retrieval_two_sources)],
       Ok r)
    /\ Enhanced.answer r = "Groundnut does well on sandy loam."
    /\ trimmed (Enhanced.answer r).
Proof.
  apply (enhanced_answer_is_trimmed service_healthy sandy_question
           (" Groundnut does well on sandy loam." ++ nl)
           retrieval_two_sources).
  split; [reflexivity|]. exists healthy_model. now split.
Defined.

Lemma prompt_by_prefix (q : string) (rd : Retrieved.t) :
  prompt_as_specified q rd =
  persona_preamble ++ q ++ retrieved_data_header
  ++ match firstn 3 (get (Retrieved.sources rd) []) with
     | [] => no_match_notice
     | l => join (map render_source (enumerate l 1))
     end
  ++ closing_instructions.
Proof.
  unfold prompt_as_specified.
  destruct (get (Retrieved.sources rd) []) as [|a l]; reflexivity.
Qed.

(** X7.  The prompt is a function of the question and of the first three
    retrieved sources only: the retrieved answer, the confidence, the result
    count and any further source never reach the model. *)
Theorem prompt_depends_on_first_three (q : string) (rd rd' : Retrieved.t) :
  firstn 3 (get (Retrieved.sources rd) [])
  = firstn 3 (get (Retrieved.sources rd') []) ->
  build_prompt q rd = build_prompt q rd'.
Proof.
  intros H. rewrite !build_prompt_as_specified, !prompt_by_prefix.
  now rewrite H.
Qed.

Lemma prompt_depends_on_first_three_witness :
  build_prompt sandy_question retrieval_four_sources
  = build_prompt sandy_question
      {| Retrieved.answer := None;
         Retrieved.confidence := Some 1%Q;
         Retrieved.sources := Some [source_1; source_2; source_3];
         Retrieved.search_results_count := None |}.
Proof.
  apply (prompt_depends_on_first_three sandy_question
           retrieval_four_sources).
  reflexivity.
Defined.

(* ===================================================================== *)
(** ** More on the [/query] route *)
(* ===================================================================== *)

Lemma plain_response_silent (q : string) (rd : Retrieved.t)
    (fb : option bool) :
  fst (plain_response q rd fb) = [].
Proof.
  destruct (plain_response_cases q rd) as [(a & c & Ha & Hc) | [k Hk]].
  - now rewrite (plain_response_present q rd fb a c Ha Hc).
  - now rewrite (plain_response_absent q rd fb k Hk).
Qed.

Lemma call_composer_returns_log (p : Process) (q : string)
    (rd : Retrieved.t) (l : list Event) (er : Enhanced.t) :
  call_generate_smart_response p q rd = (l, Ok er) ->
  l = [GenerateContent (build_prompt q rd)]
  /\ Enhanced.sources er = get (Retrieved.sources rd) []
  /\ (Enhanced.ai_enhanced er = true ->
      Enhanced.fallback er = None
      /\ exists b, Enhanced.general_guidance er = Some b)
  /\ (Enhanced.ai_enhanced er = false ->
      Enhanced.general_guidance er = None).
Proof.
  unfold call_generate_smart_response.
  destruct (gemini_service p) as [svc|]; [|discriminate].
  destruct (composer_cases svc q rd) as [Hn | [Hf | [text Ht]]].
  - rewrite (composer_not_ready _ _ _ Hn). discriminate.
  - rewrite (composer_call_fails _ _ _ Hf). intros [= <- <-].
    repeat split; cbn; try discriminate; trivial.
  - rewrite (composer_call_returns _ _ _ _ Ht). intros [= <- <-].
    repeat split; cbn; try discriminate; trivial.
    eexists; reflexivity.
Qed.

(** The outcome of a served request, read off [compose_response]. *)
Lemma query_served_parts (p p' : Process) (qa : QASystem) (d : Request.t)
    (q : string) (rd : Retrieved.t) :
  init_qa_system p = (p', Ok qa) ->
  Request.question d = Some q ->
  answer_question qa q (get (Request.top_k d) 10%Z) = Ok rd ->
  let c := compose_response p' q rd (get (Request.use_gemini d) true) in
  sent (query p (Some d)) = fst c
  /\ fst (fst (query p (Some d))) = p'
  /\ snd (query p (Some d)) =
     match snd c with
     | Ok r => (Envelope r, 200%Z)
     | Raise e => (ErrorWithDetails (str_of_exn e), 500%Z)
     end.
Proof.
  intros Hi Hq Hr c.
  rewrite (query_served p p' qa d q rd Hi Hq Hr). fold c.
  destruct c as [l [r|e]]; now repeat split.
Qed.

(** The 400 of the route on a parsed object or null body. *)
Lemma query_status_400 (p : Process) (data : option Request.t) :
  status_of (query p data) = 400%Z
  <-> (exists qa, serves p qa) /\ missing_question data = true.
Proof.
  unfold status_of, serves.
  destruct (query_cases p data)
    as [(p1 & e & Hi & E) | [(p1 & qa & Hi & Hm & E)
        | [(p1 & qa & d & q & e & Hi & -> & Hq & Hr & E)
          | (p1 & qa & d & q & rd & Hi & -> & Hq & Hr & E)]]];
    rewrite E; cbn [snd].
  - split; [discriminate|]. intros [(qa & p2 & Hs) _]. congruence.
  - split; [|reflexivity]. intros _. split; [now exists qa, p1 | exact Hm].
  - split; [discriminate|]. intros [_ Hm].
    assert (missing_question (Some d) = false) as Hf
      by (apply missing_question_iff; now exists d, q).
    congruence.
  - assert (missing_question (Some d) = false) as Hf
      by (apply missing_question_iff; now exists d, q).
    destruct (compose_response p1 q rd (get (Request.use_gemini d) true))
      as [l [r|e]]; cbn [snd]; (split; [discriminate | intros [_ Hm]; congruence]).
Qed.

Lemma route_body_object (p : Process) (qa : QASystem) (d : Request.t) :
  route_body p qa (Ok (JObject d)) = query_body p qa (Some d).
Proof.
  unfold route_body, lift. rewrite bind_pure.
  unfold query_body, missing_question. cbn [json_truthy question_in].
  destruct (Request.truthy d); cbn [negb orb]; [|reflexivity].
  rewrite bind_pure.
  now destruct (Request.question d).
Qed.

(** On an object, and on [null], the route is [query]. *)
Lemma query_route_parsed (p : Process) :
  (forall d, query_route p (Ok (JObject d)) = query p (Some d))
  /\ query_route p (Ok JNull) = query p None.
Proof.
  split; [intros d|]; unfold query_route, query;
    destruct (init_qa_system p) as [p' [qa|e]]; trivial.
  now rewrite route_body_object.
Qed.

Lemma missing_question_object (d : Request.t) :
  missing_question (Some d) = true
  <-> json_truthy (JObject d) = false
      \/ question_in (JObject d) = Ok false.
Proof.
  unfold missing_question. cbn [json_truthy question_in].
  destruct (Request.truthy d), (Request.question d); cbn;
    intuition congruence.
Qed.

(** X8.  The route answers 400 exactly when the retriever could be obtained,
    [get_json] returned, and the body is false as a truth value (null, an
    empty object, 0, an empty string or array) or does not hold 'question'.
    Everything else that goes wrong before the retriever is asked is a 500:
    a retriever that cannot be constructed (it is obtained first, so even a
    request without a question gets 500 then), a body [get_json] cannot
    parse, and a body on which the test or the subscript raises. *)
Theorem status_400_iff (p : Process) (payload : Exc Json) :
  (status_of (query_route p payload) = 400%Z
   <-> (exists qa, serves p qa)
       /\ exists data,
            payload = Ok data
            /\ (json_truthy data = false \/ question_in data = Ok false))
  /\ (forall p' e,
         init_qa_system p = (p', Raise e) ->
         status_of (query_route p payload) = 500%Z)
  /\ (forall e,
         payload = Raise e ->
         status_of (query_route p payload) = 500%Z).
Proof.
  split; [|split].
  - destruct payload as [data|e].
    + destruct data as [|b|n|x|s|items|d].
      7: { rewrite (proj1 (query_route_parsed p) d), query_status_400,
             missing_question_object.
           split.
           - intros [Hs Hm]. split; [exact Hs|]. now exists (JObject d).
           - intros [Hs (data & [= <-] & Hm)]. now split. }
      all: unfold status_of, query_route, route_body, lift, serves;
        destruct (init_qa_system p) as [p' [qa|e]] eqn:Hi;
        [|split; [discriminate | intros [(qa & p2 & [=]) _]]].
      all: rewrite bind_pure; cbn [json_truthy question_in].
      * cbn. split; [intros _|reflexivity].
        split; [now exists qa, p'|]. exists JNull. auto.
      * destruct b; cbn.
        -- split; [discriminate|].
           intros [_ (data & [= <-] & [H | H])]; discriminate.
        -- split; [intros _|reflexivity].
           split; [now exists qa, p'|]. exists (JBool false). auto.
      * destruct (n =? 0)%Z eqn:Hn; cbn.
        -- split; [intros _|reflexivity].
           split; [now exists qa, p'|]. exists (JInt n).
           split; [reflexivity|]. left. cbn. now rewrite Hn.
        -- split; [discriminate|].
           intros [_ (data & [= <-] & [H | H])]; cbn in H;
             [rewrite Hn in H|]; discriminate.
      * destruct (Qeq_bool x 0) eqn:Hx; cbn.
        -- split; [intros _|reflexivity].
           split; [now exists qa, p'|]. exists (JFloat x).
           split; [reflexivity|]. left. cbn. now rewrite Hx.
        -- split; [discriminate|].
           intros [_ (data & [= <-] & [H | H])]; cbn in H;
             [rewrite Hx in H|]; discriminate.
      * destruct (str_truthy s) eqn:Hs; cbn [negb].
        -- rewrite bind_pure.
           destruct (is_substring "question" s) eqn:Hq; cbn.
           ++ split; [discriminate|].
              intros [_ (data & [= <-] & [H | H])]; cbn in H; congruence.
           ++ split; [intros _|reflexivity].
              split; [now exists qa, p'|]. exists (JString s).
              split; [reflexivity|]. right. cbn. now rewrite Hq.
        -- cbn. split; [intros _|reflexivity].
           split; [now exists qa, p'|]. exists (JString s).
           split; [reflexivity|]. now left.
      * destruct (list_truthy items) eqn:Hs; cbn [negb].
        -- rewrite bind_pure.
           destruct (existsb is_question_item items) eqn:Hq; cbn.
           ++ split; [discriminate|].
              intros [_ (data & [= <-] & [H | H])]; cbn in H; congruence.
           ++ split; [intros _|reflexivity].
              split; [now exists qa, p'|]. exists (JArray items).
              split; [reflexivity|]. right. cbn. now rewrite Hq.
        -- cbn. split; [intros _|reflexivity].
           split; [now exists qa, p'|]. exists (JArray items).
           split; [reflexivity|]. now left.
    + unfold status_of, query_route, route_body, lift.
      destruct (init_qa_system p) as [p' [qa|e']]; cbn;
        (split; [discriminate | intros [_ (data & [=] & _)]]).
  - intros p' e Hi. unfold status_of, query_route. now rewrite Hi.
  - intros e ->. unfold status_of, query_route, route_body, lift.
    now destruct (init_qa_system p) as [p' [qa|e']].
Qed.

Lemma status_400_iff_witness :
  status_of
    (query_route (process_healthy retrieval_two_sources)
       (Ok (JArray [JString "top_k"])))
  = 400%Z
  /\ status_of
       (query_route
          (startup (Ok (Ok healthy_model))
             (Raise (Exception "vector_database.pkl is corrupt")))
          (Ok JNull))
     = 500%Z
  /\ status_of
       (query_route (process_healthy retrieval_two_sources)
          (Raise (Exception "400 Bad Request")))
     = 500%Z.
Proof.
  split; [|split].
  - apply (proj2 (proj1 (status_400_iff
                           (process_healthy retrieval_two_sources)
                           (Ok (JArray [JString "top_k"]))))).
    split.
    + exists (retriever_of retrieval_two_sources). eexists. reflexivity.
    + exists (JArray [JString "top_k"]). split; [reflexivity|].
      right. reflexivity.
  - apply (proj1 (proj2 (status_400_iff
                           (startup (Ok (Ok healthy_model))
                              (Raise
                                 (Exception "vector_database.pkl is corrupt")))
                           (Ok JNull)))
             (startup (Ok (Ok healthy_model))
                (Raise (Exception "vector_database.pkl is corrupt")))
             (Exception "vector_database.pkl is corrupt")).
    reflexivity.
  - apply (proj2 (proj2 (status_400_iff
                           (process_healthy retrieval_two_sources)
                           (Raise (Exception "400 Bad Request"))))
             (Exception "400 Bad Request")).
    reflexivity.
Defined.

(** X9.  A request sends at most one prompt to the model, and that prompt
    is the one built from the request's question and the retrieved data; a
    request that opts out ([use_gemini] false), or a process without the
    service module, sends none. *)
Theorem at_most_one_prompt (p : Process) (data : option Request.t) :
  (wants_enhancer data = false \/ GEMINI_AVAILABLE p = false ->
   sent (query p data) = [])
  /\ (sent (query p data) = []
      \/ exists d q qa rd,
           data = Some d /\ Request.question d = Some q /\ serves p qa
           /\ answer_question qa q (get (Request.top_k d) 10%Z) = Ok rd
           /\ sent (query p data)
              = [GenerateContent (build_prompt q rd)]).
Proof.
  destruct (query_cases p data)
    as [(p1 & e & Hi & E) | [(p1 & qa & Hi & Hm & E)
        | [(p1 & qa & d & q & e & Hi & -> & Hq & Hr & E)
          | (p1 & qa & d & q & rd & Hi & -> & Hq & Hr & E)]]];
    try (rewrite E; split; [reflexivity | now left]).
  clear E.
  destruct (query_served_parts p p1 qa d q rd Hi Hq Hr) as (Hs & _ & _).
  rewrite Hs. clear Hs.
  destruct (init_qa_system_keeps p p1 _ Hi) as [Hav _].
  destruct (compose_response_cases p1 q rd (get (Request.use_gemini d) true))
    as [[Hc C] | [(l & er & Hc & Hcall & C) | (e & Hc & _ & C)]];
    rewrite C.
  - rewrite plain_response_silent. split; [reflexivity | now left].
  - apply call_composer_returns_log in Hcall as [-> _]. cbn [fst].
    split.
    + cbn [wants_enhancer]. rewrite Hav in Hc.
      intros [H | H]; rewrite H in Hc;
        [rewrite andb_false_r in Hc|]; discriminate.
    + right. exists d, q, qa, rd. repeat split; trivial. now exists p1.
  - rewrite plain_response_silent. split; [reflexivity | now left].
Qed.

Lemma at_most_one_prompt_witness :
  sent (query (process_healthy retrieval_two_sources)
          (without_enhancer (ask sandy_question))) = [].
Proof.
  apply (proj1 (at_most_one_prompt (process_healthy retrieval_two_sources)
                  (without_enhancer (ask sandy_question)))).
  left. reflexivity.
Defined.

(** X10.  The enhanced path of the route: when the model answers, the
    response is 200 with the trimmed completion as answer, the composer's
    confidence (the retrieved one with sources, 0.5 without), the whole
    retrieved source list, [num_results] from ['search_results_count'],
    [ai_enhanced = true], [general_guidance] set and no [fallback] key. *)
Theorem query_enhanced (p p' : Process) (qa : QASystem)
    (svc : GeminiService) (d : Request.t) (q text : string)
    (rd : Retrieved.t) :
  init_qa_system p = (p', Ok qa) ->
  Request.question d = Some q ->
  answer_question qa q (get (Request.top_k d) 10%Z) = Ok rd ->
  GEMINI_AVAILABLE p = true ->
  gemini_service p = Some svc ->
  get (Request.use_gemini d) true = true ->
  enhancer_call_returns svc (build_prompt q rd) text ->
  query p (Some d) =
  (p', [GenerateContent (build_prompt q rd)],
   (Envelope
      {| Response.question := q;
         Response.answer := strip text;
         Response.confidence :=
           if list_truthy (get (Retrieved.sources rd) [])
           then get (Retrieved.confidence rd) 0%Q
           else (1 # 2)%Q;
         Response.sources := get (Retrieved.sources rd) [];
         Response.num_results := get (Retrieved.search_results_count rd) 0%Z;
         Response.ai_enhanced := true;
         Response.general_guidance :=
           Some (negb (list_truthy (get (Retrieved.sources rd) [])));
         Response.fallback := None |},
    200%Z)).
Proof.
  intros Hi Hq Hr Hav Hs Hu Ht.
  rewrite (query_served p p' qa d q rd Hi Hq Hr), Hu.
  destruct (init_qa_system_keeps p p' _ Hi) as [Hav' Hs'].
  unfold compose_response, call_generate_smart_response.
  rewrite Hav', Hav, Hs', Hs, (composer_call_returns svc q text rd Ht).
  rewrite has_data_sources. reflexivity.
Qed.

Lemma query_enhanced_witness :
  exists r,
    query (process_healthy retrieval_two_sources) (ask sandy_question)
    = (set_qa_system (process_healthy retrieval_two_sources)
         (retriever_of retrieval_two_sources),
       [GenerateContent (build_prompt sandy_question retrieval_two_sources)],
       (Envelope r, 200%Z))
    /\ Response.answer r = "Groundnut does well on sandy loam."
    /\ Response.confidence r = (82 # 100)%Q
    /\ length (Response.sources r) = 2
    /\ Response.ai_enhanced r = true
    /\ Response.fallback r = None.
Proof.
  eexists. split.
  - apply (query_enhanced (process_healthy retrieval_two_sources)
             (set_qa_system (process_healthy retrieval_two_sources)
                (retriever_of retrieval_two_sources))
             (retriever_of retrieval_two_sources)
             service_healthy
             (request_with sandy_question None None)
             sandy_question
             (" Groundnut does well on sandy loam." ++ nl)
             retrieval_two_sources); try reflexivity.
    split; [reflexivity|]. exists healthy_model. now split.
  - repeat split; reflexivity.
Defined.

(** X11.  A retrieved dictionary without ['answer'] or ['confidence'] is
    fatal wherever the route builds the response itself: on the direct path
    ([use_gemini] false) and on the route's own fallback (the composer raised
    because the enhancer is not initialised) the route reads both keys with a
    subscript and answers 500 with the text of the [KeyError], the quoted
    key. *)
Theorem missing_key_gives_500 (p p' : Process) (qa : QASystem)
    (q k : string) (top_k : option Z) (rd : Retrieved.t) :
  init_qa_system p = (p', Ok qa) ->
  answer_question qa q (get top_k 10%Z) = Ok rd ->
  lacks_key rd = Some k ->
  (k = "answer" \/ k = "confidence")
  /\ query p (Some (request_with q top_k (Some false)))
     = (p', [], (ErrorWithDetails ("'" ++ k ++ "'"), 500%Z))
  /\ (GEMINI_AVAILABLE p = true ->
      enhancer_init_failed p ->
      query p (Some (request_with q top_k None))
      = (p', [], (ErrorWithDetails ("'" ++ k ++ "'"), 500%Z))).
Proof.
  intros Hi Hr Hk.
  assert (Hkey : k = "answer" \/ k = "confidence").
  { unfold lacks_key in Hk.
    destruct (Retrieved.answer rd), (Retrieved.confidence rd);
      inversion Hk; auto. }
  assert (Htext : str_of_exn (KeyError k) = "'" ++ k ++ "'")
    by (destruct Hkey as [-> | ->]; reflexivity).
  split; [exact Hkey|]. split.
  - rewrite (query_served p p' qa (request_with q top_k (Some false)) q rd
               Hi eq_refl Hr).
    unfold compose_response. cbn [request_with Request.use_gemini get].
    rewrite andb_false_r, (plain_response_absent q rd None k Hk).
    now rewrite Htext.
  - intros Hav Hf.
    rewrite (query_served p p' qa (request_with q top_k None) q rd
               Hi eq_refl Hr).
    cbn [request_with Request.use_gemini get].
    destruct (init_qa_system_keeps p p' _ Hi) as [Hav' Hs'].
    rewrite compose_response_not_ready.
    + rewrite (plain_response_absent q rd (Some true) k Hk).
      now rewrite Htext.
    + congruence.
    + intros svc Hs. apply Hf. congruence.
Qed.

Lemma missing_key_gives_500_witness :
  query (process_not_ready (Retrieved.mk None None None None))
    (Some (request_with sandy_question None (Some false)))
  = (set_qa_system (process_not_ready (Retrieved.mk None None None None))
       (retriever_of (Retrieved.mk None None None None)),
     [], (ErrorWithDetails "'answer'", 500%Z))
  /\ query (process_not_ready (Retrieved.mk (Some "a") None None None))
       (Some (request_with sandy_question None None))
     = (set_qa_system
          (process_not_ready (Retrieved.mk (Some "a") None None None))
          (retriever_of (Retrieved.mk (Some "a") None None None)),
        [], (ErrorWithDetails "'confidence'", 500%Z)).
Proof.
  split.
  - apply (proj1 (proj2 (missing_key_gives_500
                           (process_not_ready
                              (Retrieved.mk None None None None))
                           (set_qa_system
                              (process_not_ready
                                 (Retrieved.mk None None None None))
                              (retriever_of
                                 (Retrieved.mk None None None None)))
                           (retriever_of (Retrieved.mk None None None None))
                           sandy_question "answer" None
                           (Retrieved.mk None None None None)
                           eq_refl eq_refl eq_refl))).
  - apply (proj2 (proj2 (missing_key_gives_500
                           (process_not_ready
                              (Retrieved.mk (Some "a") None None None))
                           (set_qa_system
                              (process_not_ready
                                 (Retrieved.mk (Some "a") None None None))
                              (retriever_of
                                 (Retrieved.mk (Some "a") None None None)))
                           (retriever_of
                              (Retrieved.mk (Some "a") None None None))
                           sandy_question "confidence" None
                           (Retrieved.mk (Some "a") None None None)
                           eq_refl eq_refl eq_refl))).
    + reflexivity.
    + apply process_not_ready_init_failed.
Defined.

(** X12.  Status and body go together, and the optional keys of an envelope
    exclude each other: 200 comes with an envelope, 400 with the plain error
    body and 500 with the error body with details; an envelope with
    [ai_enhanced = true] has [general_guidance] and no [fallback], an
    envelope with [fallback] has it true, with [ai_enhanced = false] and no
    [general_guidance]. *)
Theorem response_shape (p p' : Process) (data : option Request.t)
    (l : list Event) (b : Body) (s : Z) :
  query p data = (p', l, (b, s)) ->
  match b with
  | Envelope r =>
      s = 200%Z
      /\ (Response.ai_enhanced r = true ->
          Response.fallback r = None
          /\ exists g, Response.general_guidance r = Some g)
      /\ (forall f, Response.fallback r = Some f ->
          f = true /\ Response.ai_enhanced r = false
          /\ Response.general_guidance r = None)
  | Error error => s = 400%Z /\ error = "Missing question parameter"
  | ErrorWithDetails _ => s = 500%Z
  end.
Proof.
  intros Hrun.
  destruct (query_cases p data)
    as [(p1 & e & Hi & E) | [(p1 & qa & Hi & Hm & E)
        | [(p1 & qa & d & q & e & Hi & -> & Hq & Hr & E)
          | (p1 & qa & d & q & rd & Hi & -> & Hq & Hr & E)]]];
    rewrite E in Hrun; try (injection Hrun as _ _ <- <-; now trivial).
  clear E.
  destruct (compose_response_cases p1 q rd (get (Request.use_gemini d) true))
    as [[_ C] | [(l' & er & _ & Hcall & C) | (e & _ & _ & C)]];
    rewrite C in Hrun; clear C.
  - destruct (plain_response_cases q rd) as [(a & c & Ha & Hc) | [k Hk]].
    + rewrite (plain_response_present q rd _ a c Ha Hc) in Hrun.
      injection Hrun as _ _ <- <-. cbn. repeat split; discriminate.
    + rewrite (plain_response_absent q rd _ k Hk) in Hrun.
      now injection Hrun as _ _ <- <-.
  - injection Hrun as _ _ <- <-.
    apply call_composer_returns_log in Hcall as (_ & _ & Ht & Hf).
    cbn [enhanced_response Response.ai_enhanced Response.fallback
         Response.general_guidance].
    split; [reflexivity|]. split; [|discriminate].
    intros _. split; [reflexivity|]. eexists; reflexivity.
  - destruct (plain_response_cases q rd) as [(a & c & Ha & Hc) | [k Hk]].
    + rewrite (plain_response_present q rd _ a c Ha Hc) in Hrun.
      injection Hrun as _ _ <- <-. cbn.
      split; [reflexivity|]. split; [discriminate|].
      intros f [= <-]. now repeat split.
    + rewrite (plain_response_absent q rd _ k Hk) in Hrun.
      now injection Hrun as _ _ <- <-.
Qed.

Lemma response_shape_witness :
  200%Z = 200%Z
  /\ (false = true -> None = @None bool /\ exists g, Some false = Some g)
  /\ (forall f, @None bool = Some f ->
      f = true /\ false = false /\ Some false = @None bool).
Proof.
  exact (response_shape (process_failing retrieval_two_sources) _
           (ask sandy_question) _ _ _ eq_refl).
Defined.

(** X13.  Every envelope passes the request and the retrieval through: its
    [question] is the request's question, its [sources] are the whole
    retrieved list (empty without the key) and its [num_results] is
    ['search_results_count'] (0 without the key), on the direct, the enhanced
    and both fallback paths alike; the retriever was asked that question with
    the request's [top_k], 10 by default. *)
Theorem envelope_passes_through (p p' : Process) (data : option Request.t)
    (l : list Event) (r : Response.t) (s : Z) :
  query p data = (p', l, (Envelope r, s)) ->
  exists d q qa rd,
    data = Some d /\ Request.question d = Some q /\ serves p qa
    /\ answer_question qa q (get (Request.top_k d) 10%Z) = Ok rd
    /\ Response.question r = q
    /\ Response.sources r = get (Retrieved.sources rd) []
    /\ Response.num_results r = get (Retrieved.search_results_count rd) 0%Z.
Proof.
  intros Hrun.
  destruct (query_cases p data)
    as [(p1 & e & Hi & E) | [(p1 & qa & Hi & Hm & E)
        | [(p1 & qa & d & q & e & Hi & -> & Hq & Hr & E)
          | (p1 & qa & d & q & rd & Hi & -> & Hq & Hr & E)]]];
    rewrite E in Hrun; try discriminate.
  clear E. exists d, q, qa, rd.
  split; [reflexivity|]. split; [exact Hq|].
  split; [now exists p1|]. split; [exact Hr|].
  destruct (compose_response_cases p1 q rd (get (Request.use_gemini d) true))
    as [[_ C] | [(l' & er & _ & Hcall & C) | (e & _ & _ & C)]];
    rewrite C in Hrun; clear C.
  - destruct (plain_response_cases q rd) as [(a & c & Ha & Hc) | [k Hk]].
    + rewrite (plain_response_present q rd _ a c Ha Hc) in Hrun.
      injection Hrun as _ _ <- _. now repeat split.
    + rewrite (plain_response_absent q rd _ k Hk) in Hrun. discriminate.
  - injection Hrun as _ _ <- _.
    apply call_composer_returns_log in Hcall as (_ & Hsrc & _).
    cbn [enhanced_response Response.question Response.sources
         Response.num_results].
    now repeat split.
  - destruct (plain_response_cases q rd) as [(a & c & Ha & Hc) | [k Hk]].
    + rewrite (plain_response_present q rd _ a c Ha Hc) in Hrun.
      injection Hrun as _ _ <- _. now repeat split.
    + rewrite (plain_response_absent q rd _ k Hk) in Hrun. discriminate.
Qed.

Lemma envelope_passes_through_witness :
  exists d q qa rd,
    ask sandy_question = Some d /\ Request.question d = Some q
    /\ serves (process_failing retrieval_four_sources) qa
    /\ answer_question qa q (get (Request.top_k d) 10%Z) = Ok rd
    /\ sandy_question = q
    /\ [source_1; source_2; source_3; source_4]
       = get (Retrieved.sources rd) []
    /\ 4%Z = get (Retrieved.search_results_count rd) 0%Z.
Proof.
  exact (envelope_passes_through (process_failing retrieval_four_sources) _
           (ask sandy_question) _
           {| Response.question := sandy_question;
              Response.answer := "Groundnut and watermelon suit sandy soil.";
              Response.confidence := (82 # 100)%Q;
              Response.sources := [source_1; source_2; source_3; source_4];
              Response.num_results := 4%Z;
              Response.ai_enhanced := false;
              Response.general_guidance := Some false;
              Response.fallback := None |}
           _ eq_refl).
Defined.

(* ===================================================================== *)
(** ** The lazily constructed retriever and the other routes *)
(* ===================================================================== *)

Lemma init_qa_system_again (p p' : Process) (r : Exc QASystem) :
  init_qa_system p = (p', r) -> init_qa_system p' = (p', r).
Proof.
  unfold init_qa_system.
  destruct (qa_system p) as [qa|] eqn:Hq.
  - intros [= <- <-]. now rewrite Hq.
  - destruct (IntelligentQASystem p) as [qa|e] eqn:Hc.
    + intros [= <- <-]. reflexivity.
    + intros [= <- <-]. now rewrite Hq, Hc.
Qed.

Lemma query_after_init (p : Process) (data : option Request.t) :
  query (fst (init_qa_system p)) data = query p data.
Proof.
  destruct (init_qa_system p) as [p' r] eqn:Hi. cbn [fst].
  unfold query. now rewrite (init_qa_system_again p p' r Hi), Hi.
Qed.

Lemma query_state (p : Process) (data : option Request.t) :
  fst (fst (query p data)) = fst (init_qa_system p).
Proof.
  unfold query.
  destruct (init_qa_system p) as [p' [qa|e]]; [|reflexivity].
  now destruct (query_body p' qa data) as [l [r|e]].
Qed.

(** X14.  With the retriever's constructor behaving the same, requests do
    not influence each other: what a request is answered, the prompt it sends
    and the process it leaves are the same after any earlier request as
    without it. *)
Theorem requests_are_independent (p : Process)
    (earlier data : option Request.t) :
  query (fst (fst (query p earlier))) data = query p data.
Proof.
  rewrite query_state. apply query_after_init.
Qed.

(** X15.  The [/health] and [/stats] routes are transparent for [/query]:
    after either of them, whatever it answered, a request gets the response it
    would have got without it. *)
Theorem health_and_stats_are_transparent (p : Process)
    (attributes : QASystem -> QAAttributes) (data : option Request.t) :
  query (fst (health p)) data = query p data
  /\ query (fst (stats attributes p)) data = query p data.
Proof.
  split.
  - replace (fst (health p)) with (fst (init_qa_system p));
      [apply query_after_init|].
    unfold health. now destruct (init_qa_system p) as [p' [qa|e]].
  - replace (fst (stats attributes p)) with (fst (init_qa_system p));
      [apply query_after_init|].
    unfold stats. destruct (init_qa_system p) as [p' [qa|e]]; [|reflexivity].
    destruct (chunks (attributes qa)); [|reflexivity].
    now destruct (vector_db_method (attributes qa)).
Qed.

Lemma init_qa_system_sets (p p' : Process) (qa : QASystem) :
  init_qa_system p = (p', Ok qa) -> qa_system p' = Some qa.
Proof.
  unfold init_qa_system.
  destruct (qa_system p) as [qa0|] eqn:Hq.
  - now intros [= <- <-].
  - destruct (IntelligentQASystem p) as [qa0|e]; [|discriminate].
    now intros [= <- <-].
Qed.

(** X16.  A constructed retriever is kept: once one request has obtained
    the retriever, later requests are answered as before even if the
    constructor would raise by then; it is not called again. *)
Theorem retriever_is_cached (p : Process) (qa : QASystem)
    (earlier data : option Request.t) (ctor : Exc QASystem) :
  serves p qa ->
  let later := with_constructor (fst (fst (query p earlier))) ctor in
  query later data = (later, sent (query p data), snd (query p data)).
Proof.
  intros [p' Hi]. cbv zeta. rewrite query_state, Hi. cbn [fst].
  pose proof (init_qa_system_sets p p' qa Hi) as Hq.
  unfold query at 1 2 3, sent, init_qa_system at 1.
  cbn [with_constructor qa_system]. rewrite Hq, Hi.
  change (query_body (with_constructor p' ctor) qa data)
    with (query_body p' qa data).
  now destruct (query_body p' qa data) as [l [r|e]].
Qed.

Lemma retriever_is_cached_witness :
  status_of
    (query
       (with_constructor
          (fst (fst (query (process_healthy retrieval_two_sources) None)))
          (Raise (Exception "file gone")))
       (ask sandy_question))
  = 200%Z.
Proof.
  unfold status_of.
  rewrite (retriever_is_cached (process_healthy retrieval_two_sources)
             (retriever_of retrieval_two_sources) None (ask sandy_question)
             (Raise (Exception "file gone"))).
  - reflexivity.
  - eexists. reflexivity.
Defined.

(** X17.  A failed construction is not kept: the request is answered 500
    with the exception's text and the process is left as it was, so the next
    request calls the constructor again and is served once it succeeds. *)
Theorem failed_construction_is_retried (p p' : Process) (e : exn)
    (data : option Request.t) (qa : QASystem) :
  init_qa_system p = (p', Raise e) ->
  query p data = (p, [], (ErrorWithDetails (str_of_exn e), 500%Z))
  /\ serves (with_constructor (fst (fst (query p data))) (Ok qa)) qa.
Proof.
  intros Hi.
  assert (p' = p /\ qa_system p = None) as [-> Hq].
  { unfold init_qa_system in Hi.
    destruct (qa_system p); [discriminate|].
    destruct (IntelligentQASystem p); [discriminate|].
    injection Hi as <- _. now split. }
  rewrite (query_init_raises p p e data Hi). split; [reflexivity|].
  cbn [fst]. eexists. unfold init_qa_system.
  cbn [with_constructor qa_system IntelligentQASystem]. rewrite Hq.
  reflexivity.
Qed.

Lemma failed_construction_is_retried_witness :
  query (startup (Ok (Ok healthy_model)) (Raise (Exception "no file")))
    (ask sandy_question)
  = (startup (Ok (Ok healthy_model)) (Raise (Exception "no file")),
     [], (ErrorWithDetails "no file", 500%Z))
  /\ serves
       (with_constructor
          (fst (fst (query
                       (startup (Ok (Ok healthy_model))
                          (Raise (Exception "no file")))
                       (ask sandy_question))))
          (Ok (retriever_of retrieval_two_sources)))
       (retriever_of retrieval_two_sources).
Proof.
  apply (failed_construction_is_retried
           (startup (Ok (Ok healthy_model)) (Raise (Exception "no file")))
           (startup (Ok (Ok healthy_model)) (Raise (Exception "no file")))
           (Exception "no file") (ask sandy_question)
           (retriever_of retrieval_two_sources)).
  reflexivity.
Defined.

(** X18.  [gemini_available] tells whether the service module was imported,
    not whether the enhancer works: in a process whose Gemini initialisation
    raised, [home] and a healthy [health] both report
    [gemini_available = true], while every call of the composer raises
    "Gemini not available". *)
Theorem gemini_available_despite_failed_init (e : exn)
    (ctor : Exc QASystem) :
  let p := startup (Ok (Raise e)) ctor in
  Home.gemini_available (fst (home p)) = true
  /\ (forall p' b s,
         health p = (p', (b, s)) -> s = 200%Z ->
         b = Healthy "healthy" "Q&A system is running" true)
  /\ (forall q rd,
         call_generate_smart_response p q rd
         = ([], Raise (Exception "Gemini not available"))).
Proof.
  cbv zeta. split; [reflexivity|]. split.
  - intros p' b s. unfold health.
    destruct (init_qa_system (startup (Ok (Raise e)) ctor))
      as [p1 [qa|e1]] eqn:Hi.
    + destruct (init_qa_system_keeps _ _ _ Hi) as [Hav _].
      intros [= <- <- <-] _. now rewrite Hav.
    + intros [= <- <- <-]. discriminate.
  - intros q rd. reflexivity.
Qed.

Lemma gemini_available_despite_failed_init_witness :
  fst (snd (health (process_not_ready retrieval_two_sources)))
  = Healthy "healthy" "Q&A system is running" true.
Proof.
  exact (proj1 (proj2 (gemini_available_despite_failed_init
                         (Exception "No API_KEY found")
                         (Ok (retriever_of retrieval_two_sources))))
           _ _ _ eq_refl eq_refl).
Defined.



(* ===================================================================== *)
(** ** The download of the vector store *)
(* ===================================================================== *)

Lemma set_file_same (fs : Files) (path content : string) :
  set_file fs path content path = Some content.
Proof.
  unfold set_file. now rewrite String.eqb_refl.
Qed.

Lemma set_file_other (fs : Files) (path content p : string) :
  p <> path -> set_file fs path content p = fs p.
Proof.
  intros Hp. unfold set_file.
  now apply String.eqb_neq in Hp as ->.
Qed.

Lemma write_chunks_content (path : string) (chunks : list string)
    (fs : Files) (c : string) :
  fs path = Some c ->
  fold_left (write_chunk path) chunks fs path = Some (c ++ join chunks).
Proof.
  revert fs c.
  induction chunks as [|chunk chunks IH]; intros fs c Hc;
    cbn [fold_left join fold_right].
  - now rewrite append_empty_r.
  - rewrite (IH _ (c ++ chunk)).
    + now rewrite append_assoc.
    + unfold write_chunk. now rewrite set_file_same, Hc.
Qed.

Lemma write_chunks_other (path p : string) (chunks : list string)
    (fs : Files) :
  p <> path -> fold_left (write_chunk path) chunks fs p = fs p.
Proof.
  intros Hp. revert fs.
  induction chunks as [|chunk chunks IH]; intros fs; cbn [fold_left];
    [reflexivity|].
  rewrite IH. unfold write_chunk. now apply set_file_other.
Qed.

(** The file as the loop leaves it. *)
Lemma downloaded_content (fs : Files) (chunks : list string) :
  fold_left (write_chunk VECTOR_DB_FILE) chunks
    (set_file fs VECTOR_DB_FILE "") VECTOR_DB_FILE
  = Some (join chunks).
Proof.
  now rewrite (write_chunks_content _ _ _ "" (set_file_same _ _ _)).
Qed.

Lemma ensure_present (host : Host) (fs : Files) :
  path_exists fs VECTOR_DB_FILE = true ->
  ensure_vector_db host fs = (fs, [], Ok tt).
Proof.
  intros H. unfold ensure_vector_db. now rewrite H.
Qed.

(** X20.  The download block runs at most once to completion: after a run
    that did not raise, the file is there, and the block, run again on any
    host, makes no request and changes no file. *)
Theorem download_is_idempotent (host host' : Host) (fs fs' : Files)
    (l : list NetEvent) :
  ensure_vector_db host fs = (fs', l, Ok tt) ->
  path_exists fs' VECTOR_DB_FILE = true
  /\ ensure_vector_db host' fs' = (fs', [], Ok tt).
Proof.
  intros Hrun.
  assert (path_exists fs' VECTOR_DB_FILE = true) as He.
  { unfold ensure_vector_db in Hrun.
    destruct (path_exists fs VECTOR_DB_FILE) eqn:Hp; cbn [negb] in Hrun.
    - now injection Hrun as <- _.
    - destruct (requests_get host download_url) as [resp|e]; [|discriminate].
      destruct (raise_for_status resp); [discriminate|].
      destruct (makedirs host (dirname VECTOR_DB_FILE)); [discriminate|].
      destruct (open_wb host VECTOR_DB_FILE); [discriminate|].
      destruct (stream_error resp); [discriminate|].
      injection Hrun as <- _.
      unfold path_exists. now rewrite downloaded_content. }
  split; [exact He | now apply ensure_present].
Qed.

Lemma download_is_idempotent_witness :
  exists fs',
    ensure_vector_db download_ok no_files
    = (fs', [HttpGet download_url], Ok tt)
    /\ path_exists fs' VECTOR_DB_FILE = true
    /\ ensure_vector_db download_forbidden fs' = (fs', [], Ok tt).
Proof.
  eexists. split; [reflexivity|].
  apply (download_is_idempotent download_ok download_forbidden no_files _
           [HttpGet download_url]).
  reflexivity.
Defined.

(** X21.  A completed download makes one GET request to the Drive URL and
    leaves in [backend/vector_database.pkl] the chunks of the response, in
    order, joined; no other file changes. *)
Theorem download_writes_all_chunks (host : Host) (fs : Files)
    (response : HttpResponse) :
  path_exists fs VECTOR_DB_FILE = false ->
  requests_get host download_url = Ok response ->
  raise_for_status response = None ->
  makedirs host "backend" = None ->
  open_wb host VECTOR_DB_FILE = None ->
  stream_error response = None ->
  exists fs',
    ensure_vector_db host fs = (fs', [HttpGet download_url], Ok tt)
    /\ fs' VECTOR_DB_FILE = Some (join (iter_content response))
    /\ forall p, p <> VECTOR_DB_FILE -> fs' p = fs p.
Proof.
  intros Hp Hg Hs Hm Ho He.
  unfold ensure_vector_db. rewrite Hp, Hg, Hs. cbn [negb].
  change (dirname VECTOR_DB_FILE) with "backend".
  rewrite Hm, Ho, He.
  eexists. split; [reflexivity|]. split.
  - apply downloaded_content.
  - intros p Hne. rewrite write_chunks_other by exact Hne.
    now apply set_file_other.
Qed.

Lemma download_writes_all_chunks_witness :
  exists fs',
    ensure_vector_db download_ok no_files
    = (fs', [HttpGet download_url], Ok tt)
    /\ fs' VECTOR_DB_FILE = Some "PKdataend"
    /\ forall p, p <> VECTOR_DB_FILE -> fs' p = no_files p.
Proof.
  apply (download_writes_all_chunks download_ok no_files
           {| raise_for_status := None;
              iter_content := ["PK"; "data"; "end"];
              stream_error := None |});
    reflexivity.
Defined.

(** X22.  A download cut in mid-stream is never repaired: the block raises,
    but the chunks received so far stay in the file, and since the block only
    tests that the file exists, every later run skips the download and keeps
    the partial file. *)
Theorem interrupted_download_persists (host host' : Host) (fs : Files)
    (response : HttpResponse) (e : exn) :
  path_exists fs VECTOR_DB_FILE = false ->
  requests_get host download_url = Ok response ->
  raise_for_status response = None ->
  makedirs host "backend" = None ->
  open_wb host VECTOR_DB_FILE = None ->
  stream_error response = Some e ->
  exists fs',
    ensure_vector_db host fs = (fs', [HttpGet download_url], Raise e)
    /\ fs' VECTOR_DB_FILE = Some (join (iter_content response))
    /\ ensure_vector_db host' fs' = (fs', [], Ok tt).
Proof.
  intros Hp Hg Hs Hm Ho He.
  unfold ensure_vector_db at 1. rewrite Hp, Hg, Hs. cbn [negb].
  change (dirname VECTOR_DB_FILE) with "backend".
  rewrite Hm, Ho, He.
  eexists. split; [reflexivity|]. split.
  - apply downloaded_content.
  - apply ensure_present. unfold path_exists.
    now rewrite downloaded_content.
Qed.

Lemma interrupted_download_persists_witness :
  exists fs',
    ensure_vector_db download_cut no_files
    = (fs', [HttpGet download_url], Raise (Exception "Connection broken"))
    /\ fs' VECTOR_DB_FILE = Some "PKda"
    /\ ensure_vector_db download_ok fs' = (fs', [], Ok tt).
Proof.
  apply (interrupted_download_persists download_cut download_ok no_files
           {| raise_for_status := None;
              iter_content := ["PK"; "da"];
              stream_error := Some (Exception "Connection broken") |}
           (Exception "Connection broken"));
    reflexivity.
Defined.

Lemma write_chunks_io_result (disk : Disk) (path : string)
    (chunks : list string) (k : nat) (fs : Files) :
  match write_chunks_io disk path k chunks fs with
  | (fs', None) => fs' = fold_left (write_chunk path) chunks fs
  | (_, Some e) => exists k', write_raises disk k' = Some e
  end.
Proof.
  revert k fs.
  induction chunks as [|chunk rest IH]; intros k fs; cbn; [reflexivity|].
  destruct (write_raises disk k) as [e|] eqn:Hk; [now exists k|].
  apply IH.
Qed.

Lemma write_chunks_io_sound (disk : Disk) (path : string)
    (chunks : list string) (k : nat) (fs : Files) :
  (forall k', write_raises disk k' = None) ->
  write_chunks_io disk path k chunks fs
  = (fold_left (write_chunk path) chunks fs, None).
Proof.
  intros Hw. revert k fs.
  induction chunks as [|chunk rest IH]; intros k fs; cbn; [reflexivity|].
  now rewrite Hw, IH.
Qed.

(** On a disk that does not fail, the block is [ensure_vector_db]. *)
Lemma ensure_vector_db_io_sound (host : Host) (disk : Disk) (fs : Files) :
  disk_sound disk ->
  ensure_vector_db_io host disk fs = ensure_vector_db host fs.
Proof.
  intros [Hw Hc]. unfold ensure_vector_db_io, ensure_vector_db, leave_with.
  destruct (negb (path_exists fs VECTOR_DB_FILE)); [|reflexivity].
  destruct (requests_get host download_url) as [resp|e]; [|reflexivity].
  destruct (raise_for_status resp); [reflexivity|].
  destruct (makedirs host (dirname VECTOR_DB_FILE)); [reflexivity|].
  destruct (open_wb host VECTOR_DB_FILE); [reflexivity|].
  rewrite (write_chunks_io_sound disk _ _ _ _ Hw), Hc.
  now destruct (stream_error resp).
Qed.

(** X23.  Whenever the download block raises, it had made exactly one
    request and the file was missing.  Either no file changed (the request,
    the status check, [makedirs] or [open] raised), or the file now exists,
    so that later runs skip the download: because the stream broke, and the
    file holds the chunks received before that, or because a write or the
    close of the file raised, and the file holds what the disk kept. *)
Theorem download_failure_cases (host : Host) (disk : Disk)
    (fs fs' : Files) (l : list NetEvent) (e : exn) :
  ensure_vector_db_io host disk fs = (fs', l, Raise e) ->
  l = [HttpGet download_url]
  /\ path_exists fs VECTOR_DB_FILE = false
  /\ (fs' = fs
      \/ path_exists fs' VECTOR_DB_FILE = true
         /\ ((exists response,
                 requests_get host download_url = Ok response
                 /\ stream_error response = Some e
                 /\ fs' VECTOR_DB_FILE
                    = Some (join (iter_content response)))
             \/ ((exists k, write_raises disk k = Some e)
                 \/ close_raises disk = Some e)
                /\ fs' VECTOR_DB_FILE = Some (left_behind disk))).
Proof.
  unfold ensure_vector_db_io, leave_with.
  destruct (path_exists fs VECTOR_DB_FILE); cbn [negb]; [discriminate|].
  destruct (requests_get host download_url) as [resp|e0] eqn:Hg;
    [|intros [= <- <- _]; now repeat split; try left].
  destruct (raise_for_status resp);
    [intros [= <- <- _]; now repeat split; try left|].
  destruct (makedirs host (dirname VECTOR_DB_FILE));
    [intros [= <- <- _]; now repeat split; try left|].
  destruct (open_wb host VECTOR_DB_FILE);
    [intros [= <- <- _]; now repeat split; try left|].
  pose proof (write_chunks_io_result disk VECTOR_DB_FILE (iter_content resp)
                0 (set_file fs VECTOR_DB_FILE "")) as Hw.
  destruct (write_chunks_io disk VECTOR_DB_FILE 0 (iter_content resp)
              (set_file fs VECTOR_DB_FILE "")) as [written [e1|]].
  - destruct (close_raises disk) as [e2|] eqn:Hc; intros [= <- <- <-];
      (split; [reflexivity|]; split; [reflexivity|]; right;
       unfold path_exists; rewrite set_file_same;
       split; [reflexivity|]; right; split; [|reflexivity]).
    + now right.
    + left. exact Hw.
  - destruct (close_raises disk) as [e2|] eqn:Hc.
    + intros [= <- <- <-].
      split; [reflexivity|]. split; [reflexivity|]. right.
      unfold path_exists. rewrite set_file_same.
      split; [reflexivity|]. right. split; [now right | reflexivity].
    + destruct (stream_error resp) as [e3|] eqn:He; [|discriminate].
      intros [= <- <- <-]. subst written.
      split; [reflexivity|]. split; [reflexivity|]. right.
      unfold path_exists. rewrite downloaded_content.
      split; [reflexivity|]. left. exists resp.
      split; [reflexivity|]. split; [exact He | reflexivity].
Qed.

Lemma download_failure_cases_witness :
  exists fs',
    ensure_vector_db_io download_ok disk_full no_files
    = (fs', [HttpGet download_url],
       Raise (Exception "No space left on device"))
    /\ path_exists fs' VECTOR_DB_FILE = true
    /\ fs' VECTOR_DB_FILE = Some "PK".
Proof.
  eexists. split; [reflexivity|].
  destruct (download_failure_cases download_ok disk_full no_files _
              [HttpGet download_url]
              (Exception "No space left on device") eq_refl)
    as (_ & _ & [H | [H _]]).
  - exfalso.
    apply (f_equal (fun fs : Files => fs VECTOR_DB_FILE)) in H.
    discriminate H.
  - split; [exact H | reflexivity].
Defined.

(** X24.  The download block touches no file other than
    [backend/vector_database.pkl], whatever the host does. *)
Theorem download_touches_one_file (host : Host) (fs : Files) (p : string) :
  p <> VECTOR_DB_FILE ->
  fst (fst (ensure_vector_db host fs)) p = fs p.
Proof.
  intros Hne. unfold ensure_vector_db.
  destruct (path_exists fs VECTOR_DB_FILE); cbn [negb]; [reflexivity|].
  destruct (requests_get host download_url) as [resp|e]; [|reflexivity].
  destruct (raise_for_status resp); [reflexivity|].
  destruct (makedirs host (dirname VECTOR_DB_FILE)); [reflexivity|].
  destruct (open_wb host VECTOR_DB_FILE); [reflexivity|].
  destruct (stream_error resp); cbn [fst];
    (rewrite write_chunks_other by exact Hne; now apply set_file_other).
Qed.

Lemma download_touches_one_file_witness :
  fst (fst (ensure_vector_db download_ok
              (set_file no_files "backend/app.py" "import os")))
    "backend/app.py"
  = Some "import os".
Proof.
  apply (download_touches_one_file download_ok
           (set_file no_files "backend/app.py" "import os")
           "backend/app.py").
  discriminate.
Defined.
